(** * air: tabular and gridded loaders

    A shallow embedding of [src/air.py] (the tabular aggregator [pm]) and of
    [src/merra.py] (the gridded helpers [mean_polygon] and [grid_data]),
    together with the properties their specification states about them.

    The Python code is a thin layer over pandas, xarray, numpy and shapely.
    The operations it calls are modelled here by what they do on the values
    the code hands them: a data frame is an index and an association list of
    labelled columns, an array is an index function over the coordinate axes,
    an exception is the [Raise] branch of [result].  What lies outside the
    process (the file system, the date parser, the geometry engine) is taken
    as a parameter. *)

From Stdlib Require Import List String Bool Arith ZArith QArith Qabs Lia Lqa.
Import ListNotations.

Set Implicit Arguments.

(** ** Exceptions *)

(** The Python exceptions the code can run into. *)
Inductive exn : Type :=
| ValueError
| KeyError
| TypeError
| InvalidIndexError
| AttributeError
| OSError
| ParserError
| GEOSException.

Inductive result (A : Type) : Type :=
| Ok (a : A)
| Raise (e : exn).

Arguments Ok {A} a.
Arguments Raise {A} e.

Definition bind {A B : Type} (c : result A) (k : A -> result B) : result B :=
  match c with
  | Ok a => k a
  | Raise e => Raise e
  end.

Notation "x <- c ;; k" := (bind c (fun x => k))
  (at level 61, c at next level, right associativity).

(** A [for] loop that applies a fallible function to each element and stops
    at the first exception. *)
Fixpoint mapM {A B : Type} (f : A -> result B) (xs : list A) : result (list B) :=
  match xs with
  | [] => Ok []
  | x :: rest =>
      y <- f x ;;
      ys <- mapM f rest ;;
      Ok (y :: ys)
  end.

(** ** Rational comparisons as booleans *)

Definition Qlt_bool (x y : Q) : bool := negb (Qle_bool y x).

(** ** Boolean row and element selection *)

(** [select mask xs] keeps the elements of [xs] whose position is marked
    [true] in [mask] (numpy and pandas boolean indexing). *)
Definition select {A : Type} (mask : list bool) (xs : list A) : list A :=
  map snd (filter fst (combine mask xs)).

(** * The tabular aggregator ([src/air.py]) *)

Module Air.

(** A cell of a data frame.  Finite floating-point and integer readings are
    rationals; [NaN] is the missing number, [NaT] the missing date;
    [Timestamp] holds nanoseconds since the epoch; [Str] is a Python
    string (an object column). *)
Inductive cell : Type :=
| NaN
| Num (q : Q)
| PosInf
| NegInf
| Str (s : string)
| Timestamp (ns : Z)
| NaT.

(** [pd.isna] on a cell. *)
Definition isna (c : cell) : bool :=
  match c with
  | NaN | NaT => true
  | _ => false
  end.

(** A [pandas.DataFrame]: the row labels and the labelled columns, in
    order.  Labels may repeat ([rename] can produce that). *)
Record DataFrame : Type := {
  index : list cell;
  columns : list (string * list cell)
}.

Definition labels (df : DataFrame) : list string := map fst (columns df).

Definition nrows (df : DataFrame) : nat := List.length (index df).

Definition has_label (name : string) (df : DataFrame) : bool :=
  existsb (String.eqb name) (labels df).

(** [df[name]] as a Series: the column carrying the label.  An absent
    label raises [KeyError].  A repeated label does not give a Series in
    pandas; [pm] only reads labels of a concatenated frame, which are
    distinct (see [concat_labels_NoDup]), so that branch is never taken
    there. *)
Definition series (name : string) (cols : list (string * list cell))
  : result (list cell) :=
  match filter (fun p => String.eqb (fst p) name) cols with
  | [] => Raise KeyError
  | [(_, c)] => Ok c
  | _ => Raise ValueError
  end.

Definition getitem (name : string) (df : DataFrame) : result (list cell) :=
  series name (columns df).

(** *** [pd.concat(df_list, ignore_index=True)] *)

(** The labels of several frames, each once, in order of first appearance. *)
Fixpoint dedup (seen : list string) (names : list string) : list string :=
  match names with
  | [] => []
  | n :: rest =>
      if existsb (String.eqb n) seen then dedup seen rest
      else n :: dedup (n :: seen) rest
  end.

(** The cells a frame contributes to the column [name] of the
    concatenation: its own column, or missing values when it has none. *)
Definition column_or_missing (name : string) (df : DataFrame) : list cell :=
  match find (fun p => String.eqb (fst p) name) (columns df) with
  | Some (_, c) => c
  | None => repeat NaN (nrows df)
  end.

Definition RangeIndex (n : nat) : list cell :=
  map (fun i => Num (inject_Z (Z.of_nat i))) (seq 0 n).

Definition concat (dfs : list DataFrame) : result DataFrame :=
  match dfs with
  | [] => Raise ValueError (* No objects to concatenate *)
  | _ =>
      Ok {| index := RangeIndex (list_sum (map nrows dfs));
            columns :=
              map (fun n => (n, flat_map (column_or_missing n) dfs))
                  (dedup [] (flat_map labels dfs)) |}
  end.

(** *** [df.drop(columns=names)]: every name must be a label. *)
Definition drop (names : list string) (df : DataFrame) : result DataFrame :=
  if forallb (fun n => has_label n df) names
  then Ok {| index := index df;
             columns :=
               filter (fun p => negb (existsb (String.eqb (fst p)) names))
                      (columns df) |}
  else Raise KeyError.

(** *** Comparing a Series with a number *)

(** [c > k] on one cell.  A missing value compares false; a string raises
    ([TypeError], as does a date against a number). *)
Definition cell_gt (k : Q) (c : cell) : result bool :=
  match c with
  | NaN => Ok false
  | Num q => Ok (Qlt_bool k q)
  | PosInf => Ok true
  | NegInf => Ok false
  | Str _ | Timestamp _ | NaT => Raise TypeError
  end.

(** [c < k] on one cell. *)
Definition cell_lt (k : Q) (c : cell) : result bool :=
  match c with
  | NaN => Ok false
  | Num q => Ok (Qlt_bool q k)
  | PosInf => Ok false
  | NegInf => Ok true
  | Str _ | Timestamp _ | NaT => Raise TypeError
  end.

(** *** [df[mask]]: the rows marked by a boolean Series. *)
Definition loc (mask : list bool) (df : DataFrame) : DataFrame :=
  {| index := select mask (index df);
     columns := map (fun p => (fst p, select mask (snd p))) (columns df) |}.

(** *** [df.ffill()] *)

(** Forward fill of one column: a missing cell takes the last value seen
    before it, and stays missing when there is none. *)
Fixpoint ffill_from (prev : cell) (xs : list cell) : list cell :=
  match xs with
  | [] => []
  | x :: rest =>
      let y := if isna x then prev else x in
      y :: ffill_from y rest
  end.

Definition ffill_column (xs : list cell) : list cell := ffill_from NaN xs.

Definition ffill (df : DataFrame) : DataFrame :=
  {| index := index df;
     columns := map (fun p => (fst p, ffill_column (snd p))) (columns df) |}.

(** *** [df.rename(columns={old: new})] *)
Definition rename (old new : string) (df : DataFrame) : DataFrame :=
  {| index := index df;
     columns :=
       map (fun p => (if String.eqb (fst p) old then new else fst p, snd p))
           (columns df) |}.

(** *** [df[name] = values] on an existing label. *)
Definition setitem (name : string) (values : list cell) (df : DataFrame)
  : DataFrame :=
  {| index := index df;
     columns :=
       map (fun p => if String.eqb (fst p) name then (fst p, values) else p)
           (columns df) |}.

(** *** [df.set_index(name)]: the column becomes the index and leaves
    the columns. *)
Definition set_index (name : string) (df : DataFrame) : result DataFrame :=
  idx <- getitem name df ;;
  Ok {| index := idx;
        columns :=
          filter (fun p => negb (String.eqb (fst p) name)) (columns df) |}.

Definition drop_cols : list string :=
  ["location_id"; "sensors_id"; "lat"; "lon"; "parameter"; "units";
   "location"]%string.

Section Pm.

(** [glob(pattern, recursive=True)]: the paths the pattern matches. *)
Variable glob : string -> list string.

(** [pd.read_csv(file, compression='gzip')]. *)
Variable read_csv : string -> result DataFrame.

(** [pd.to_datetime] on a column. *)
Variable to_datetime : list cell -> result (list cell).

(** The files [pm] reads, as frames. *)
Definition load (path : string) : result (list DataFrame) :=
  mapM read_csv (glob (path ++ "**/**/*.csv.gz")%string).

(** The two range filters of [pm], lines 60 and 61. *)
Definition keep_positive (df : DataFrame) : result DataFrame :=
  v <- getitem "value" df ;;
  m <- mapM (cell_gt 0) v ;;
  Ok (loc m df).

Definition keep_below_900 (df : DataFrame) : result DataFrame :=
  v <- getitem "value" df ;;
  m <- mapM (cell_lt (900 # 1)) v ;;
  Ok (loc m df).

(** [pm(path, drop)], lines 46 to 68. *)
Definition pm (path : string) (drop_flag : bool) : result DataFrame :=
  df_list <- load path ;;
  df <- concat df_list ;;
  df <- (if drop_flag then drop drop_cols df else Ok df) ;;
  df <- keep_positive df ;;
  df <- keep_below_900 df ;;
  let df := ffill df in
  let df := rename "value" "pm2.5" df in
  col <- getitem "datetime" df ;;
  stamps <- to_datetime col ;;
  let df := setitem "datetime" stamps df in
  set_index "datetime" df.

(** The first half of [pm], lines 46 to 59: the concatenated table,
    pruned when asked. *)
Definition read_table (path : string) (drop_flag : bool)
  : result DataFrame :=
  df_list <- load path ;;
  df <- concat df_list ;;
  if drop_flag then drop drop_cols df else Ok df.

(** The last part of [pm], lines 62 to 68, on the filtered table. *)
Definition finish (df : DataFrame) : result DataFrame :=
  let df := ffill df in
  let df := rename "value" "pm2.5" df in
  col <- getitem "datetime" df ;;
  stamps <- to_datetime col ;;
  let df := setitem "datetime" stamps df in
  set_index "datetime" df.

End Pm.

(** The two comparisons of [pm] on a cell that can be compared. *)
Definition positive (c : cell) : bool :=
  match c with
  | Num q => Qlt_bool 0 q
  | PosInf => true
  | _ => false
  end.

Definition below_900 (c : cell) : bool :=
  match c with
  | Num q => Qlt_bool q (900 # 1)
  | NegInf => true
  | _ => false
  end.

(** A row survives both filters when its value is in range. *)
Definition in_range (c : cell) : bool := positive c && below_900 c.

(** The open interval of the specification. *)
Definition in_open_interval (c : cell) : Prop :=
  exists q, c = Num q /\ (0 < q)%Q /\ (q < 900 # 1)%Q.

(** ** A small archive

    Three files under [data/] whose readings are 100 and -5, then 950, then
    300, stamped 1 to 4 (nanoseconds after the epoch); a file with a gap in
    a metadata column; and a file with the whole set of metadata columns. *)

Local Open Scope string_scope.

Definition int (n : Z) : cell := Num (inject_Z n).

Definition station_a : DataFrame :=
  {| index := RangeIndex 2;
     columns := [("datetime", [int 1; int 2]); ("value", [int 100; int (-5)])] |}.

Definition station_b : DataFrame :=
  {| index := RangeIndex 1;
     columns := [("datetime", [int 3]); ("value", [int 950])] |}.

Definition station_c : DataFrame :=
  {| index := RangeIndex 1;
     columns := [("datetime", [int 4]); ("value", [int 300])] |}.

Definition station_gap : DataFrame :=
  {| index := RangeIndex 2;
     columns := [("datetime", [int 1; int 2]);
                 ("value", [int 10; int 20]);
                 ("location", [Str "Lahore"; NaN])] |}.

Definition station_full : DataFrame :=
  {| index := RangeIndex 2;
     columns := [("location_id", [int 7; int 7]);
                 ("sensors_id", [int 9; int 9]);
                 ("location", [Str "Lahore"; Str "Lahore"]);
                 ("datetime", [int 1; int 2]);
                 ("lat", [int 31; int 31]);
                 ("lon", [int 74; int 74]);
                 ("parameter", [Str "pm25"; Str "pm25"]);
                 ("units", [Str "ug/m3"; Str "ug/m3"]);
                 ("value", [int 1000; int 42])] |}.

Definition archive_glob (pattern : string) : list string :=
  if String.eqb pattern "data/**/**/*.csv.gz"
  then ["data/2024/01/a.csv.gz"; "data/2024/02/b.csv.gz";
        "data/2024/03/c.csv.gz"]
  else if String.eqb pattern "gap/**/**/*.csv.gz"
  then ["gap/2024/01/g.csv.gz"]
  else if String.eqb pattern "full/**/**/*.csv.gz"
  then ["full/2024/01/f.csv.gz"]
  else [].

Definition archive_read (file : string) : result DataFrame :=
  if String.eqb file "data/2024/01/a.csv.gz" then Ok station_a
  else if String.eqb file "data/2024/02/b.csv.gz" then Ok station_b
  else if String.eqb file "data/2024/03/c.csv.gz" then Ok station_c
  else if String.eqb file "gap/2024/01/g.csv.gz" then Ok station_gap
  else if String.eqb file "full/2024/01/f.csv.gz" then Ok station_full
  else Raise OSError.

(** [pd.to_datetime] on a column of whole numbers and missing values: a
    number is a count of nanoseconds since the epoch, a missing value is
    [NaT].  The archive holds no other kind of date, and this conversion
    gives up on one. *)
Definition epoch_cell (c : cell) : result cell :=
  match c with
  | Num q => if Pos.eqb (Qden q) 1 then Ok (Timestamp (Qnum q))
             else Raise ValueError
  | NaN | NaT => Ok NaT
  | Timestamp ns => Ok (Timestamp ns)
  | _ => Raise ParserError
  end.

Definition epoch_datetime (col : list cell) : result (list cell) :=
  mapM epoch_cell col.

Definition archive_pm : string -> bool -> result DataFrame :=
  pm archive_glob archive_read epoch_datetime.

(** ** What [pm] computes, in one step *)

(** A value cell that [>] and [<] accept against a number. *)
Definition comparable (c : cell) : bool :=
  match c with
  | Str _ | Timestamp _ | NaT => false
  | _ => true
  end.

(** Not one of the labels of the drop list. *)
Definition kept_label (n : string) : bool :=
  negb (existsb (String.eqb n) drop_cols).

(** The columns of the result, from the columns of the table and the
    rows that survive: the date column leaves, each other column is cut
    down to the surviving rows and forward-filled, and the value column is
    relabelled. *)
Definition cleaned_columns (keep : list bool)
           (cols : list (string * list cell)) : list (string * list cell) :=
  map (fun p => (if String.eqb (fst p) "value" then "pm2.5" else fst p,
                 ffill_column (select keep (snd p))))
      (filter (fun p => negb (String.eqb (fst p) "datetime")) cols).

(** Every column has one cell per row. *)
Definition rectangular (df : DataFrame) : Prop :=
  Forall (fun p => List.length (snd p) = nrows df) (columns df).

(** A file whose value column holds a string. *)
Definition station_text : DataFrame :=
  {| index := RangeIndex 2;
     columns := [("datetime", [int 1; int 2]);
                 ("value", [int 10; Str "n/a"])] |}.

(** A file without a date column, and one without a value column. *)
Definition station_undated : DataFrame :=
  {| index := RangeIndex 1; columns := [("value", [int 10])] |}.

Definition station_blank : DataFrame :=
  {| index := RangeIndex 1; columns := [("datetime", [int 1])] |}.

(** A second archive: directories whose files cannot all be used. *)
Definition broken_glob (pattern : string) : list string :=
  if String.eqb pattern "text/**/**/*.csv.gz"
  then ["text/t.csv.gz"]
  else if String.eqb pattern "undated/**/**/*.csv.gz"
  then ["undated/u.csv.gz"]
  else if String.eqb pattern "blank/**/**/*.csv.gz"
  then ["blank/b.csv.gz"]
  else if String.eqb pattern "torn/**/**/*.csv.gz"
  then ["torn/a.csv.gz"; "torn/missing.csv.gz"; "torn/c.csv.gz"]
  else [].

Definition broken_read (file : string) : result DataFrame :=
  if String.eqb file "text/t.csv.gz" then Ok station_text
  else if String.eqb file "undated/u.csv.gz" then Ok station_undated
  else if String.eqb file "blank/b.csv.gz" then Ok station_blank
  else if String.eqb file "torn/a.csv.gz" then Ok station_a
  else if String.eqb file "torn/c.csv.gz" then Ok station_c
  else Raise OSError.

End Air.

(** * The gridded helpers ([src/merra.py]) *)

Module Merra.

(** A cell of a floating-point array: a rational, or the missing value. *)
Inductive value : Type :=
| NaN
| Val (q : Q).

(** A variable over the dimensions (time, lat, lon), as the function from
    the three positions to the cell; its shape is that of the axes of the
    dataset it belongs to. *)
Definition variable : Type := nat -> nat -> nat -> value.

(** An [xarray.Dataset] with the coordinates [lat], [lon] and [time]. *)
Record Dataset : Type := {
  lat : list Q;
  lon : list Q;
  time : list Z;
  data_vars : list (string * variable)
}.

(** [ds[name]]. *)
Definition getvar (ds : Dataset) (name : string) : result variable :=
  match find (fun p => String.eqb (fst p) name) (data_vars ds) with
  | Some (_, v) => Ok v
  | None => Raise KeyError
  end.

(** ** numpy on lists *)

(** [np.meshgrid(x, y)]: two grids of [len(y)] rows and [len(x)] columns,
    the first repeating [x] along each row, the second repeating each
    element of [y] along its row. *)
Definition meshgrid (x y : list Q) : list (list Q) * list (list Q) :=
  (map (fun _ => x) y, map (fun b => map (fun _ => b) x) y).

(** [a.ravel()], in row-major order. *)
Definition ravel {A : Type} (a : list (list A)) : list A := List.concat a.

(** [np.column_stack([a, b])] of two flat arrays: the rows [(a[k], b[k])]. *)
Definition column_stack (a b : list Q) : list (Q * Q) := combine a b.

(** [a.shape] of a grid. *)
Definition shape {A : Type} (a : list (list A)) : nat * nat :=
  (List.length a, List.length (hd [] a)).

(** [flat.reshape(rows, cols)]. *)
Definition reshape {A : Type} (sh : nat * nat) (flat : list A)
  : list (list A) :=
  map (fun i => firstn (snd sh) (skipn (i * snd sh) flat)) (seq 0 (fst sh)).

(** [var.where(mask)] with a mask over (lat, lon): a cell outside the mask
    becomes missing, at every time. *)
Definition where_ (var : variable) (mask : list (list bool)) : variable :=
  fun t i j => if nth j (nth i mask []) false then var t i j else NaN.

(** The cells that count in a mean. *)
Definition valid (cells : list value) : list Q :=
  flat_map (fun c => match c with Val q => [q] | NaN => [] end) cells.

Definition Qsum (qs : list Q) : Q := fold_right Qplus 0%Q qs.

(** [np.nanmean] of the cells: missing cells are left out, and the mean of
    no cell at all is missing. *)
Definition nanmean (cells : list value) : value :=
  match valid cells with
  | [] => NaN
  | qs => Val (Qsum qs / inject_Z (Z.of_nat (List.length qs)))
  end.

(** The cells of one time step, over lat and then lon. *)
Definition slice (ds : Dataset) (var : variable) (t : nat) : list value :=
  flat_map (fun i => map (fun j => var t i j) (seq 0 (List.length (lon ds))))
           (seq 0 (List.length (lat ds))).

(** [var.mean(dim=['lat', 'lon'])]: one mean per time step. *)
Definition mean_lat_lon (ds : Dataset) (var : variable) : list value :=
  map (fun t => nanmean (slice ds var t)) (seq 0 (List.length (time ds))).

(** ** Geometry *)

(** What [mean_polygon] asks of shapely and geopandas, for a type [G] of
    geometries.  [union_all] is the union of the geometries of a column and
    raises when GEOS does; the union of none is the empty collection.
    [contains g p] is [g.contains(Point(p))]: true when the point is in the
    interior of [g], hence false on its boundary. *)
Class Geometry (G : Type) : Type := {
  union_all : list G -> result G;
  empty_collection : G;
  contains : G -> Q * Q -> bool;
  on_boundary : G -> Q * Q -> bool;
  union_all_nil : union_all [] = Ok empty_collection;
  contains_empty : forall p, contains empty_collection p = false;
  contains_interior :
    forall g p, contains g p = true -> on_boundary g p = false
}.

(** A [GeoDataFrame], as far as [mean_polygon] reads it: its active
    geometry column, when it has one; a row may have no geometry. *)
Record GeoDataFrame (G : Type) : Type := {
  active_geometry : option (list (option G))
}.

(** [shapefile.geometry]. *)
Definition geometry {G : Type} (shapefile : GeoDataFrame G)
  : result (list (option G)) :=
  match active_geometry shapefile with
  | Some col => Ok col
  | None => Raise AttributeError
  end.

(** The geometries of a column; the union skips the rows without one. *)
Definition present {G : Type} (col : list (option G)) : list G :=
  flat_map (fun g => match g with Some x => [x] | None => [] end) col.

(** A frame with the given shapes as its geometry column. *)
Definition shapes {G : Type} (gs : list G) : GeoDataFrame G :=
  {| active_geometry := Some (map Some gs) |}.

Section MeanPolygon.

Context {G : Type} {geo : Geometry G}.

(** [mean_polygon(ds, variable, shapefile)], lines 72 to 89: the union of
    the shapes, the mask of the grid points it contains, the variable under
    the mask, and its mean over lat and lon for each time step. *)
Definition mean_polygon (ds : Dataset) (name : string)
           (shapefile : GeoDataFrame G) : result (list value) :=
  col <- geometry shapefile ;;
  polygon <- union_all (present col) ;;
  let '(lon_grid, lat_grid) := meshgrid (lon ds) (lat ds) in
  let points := column_stack (ravel lon_grid) (ravel lat_grid) in
  let mask := map (contains polygon) points in
  let mask := reshape (shape lon_grid) mask in
  var <- getvar ds name ;;
  let var_data := where_ var mask in
  let mean_data := mean_lat_lon ds var_data in
  Ok mean_data.

End MeanPolygon.

(** ** Nearest labels *)

Fixpoint sorted_by (le : Q -> Q -> bool) (axis : list Q) : bool :=
  match axis with
  | [] => true
  | x :: rest =>
      match rest with
      | [] => true
      | y :: _ => le x y && sorted_by le rest
      end
  end.

Definition is_monotonic_increasing (axis : list Q) : bool :=
  sorted_by Qle_bool axis.

Definition is_monotonic_decreasing (axis : list Q) : bool :=
  sorted_by (fun x y => Qle_bool y x) axis.

Fixpoint is_unique (axis : list Q) : bool :=
  match axis with
  | [] => true
  | x :: rest => negb (existsb (Qeq_bool x) rest) && is_unique rest
  end.

(** The last position whose label satisfies [p]. *)
Fixpoint last_position (p : Q -> bool) (axis : list Q) : option nat :=
  match axis with
  | [] => None
  | x :: rest =>
      match last_position p rest with
      | Some k => Some (S k)
      | None => if p x then Some 0%nat else None
      end
  end.

(** The first position whose label satisfies [p]. *)
Fixpoint first_position (p : Q -> bool) (axis : list Q) : option nat :=
  match axis with
  | [] => None
  | x :: rest =>
      if p x then Some 0%nat
      else match first_position p rest with
           | Some k => Some (S k)
           | None => None
           end
  end.

Definition distance (axis : list Q) (target : Q) (k : nat) : Q :=
  Qabs (target - nth k axis 0%Q).

(** [index.get_indexer([target], method='nearest')] on a float index, as
    xarray calls it for [sel(..., method='nearest')].  The index must have
    distinct labels and be monotonic.  The match is between the label just
    before the target in the order of the index ([pad]) and the one just
    after ([backfill]); on a tie an increasing index takes the later one, a
    decreasing index the earlier one.  A target beyond an end takes that
    end; an empty index has no match.  The two distances are compared here
    as exact rationals; pandas compares the float64 differences, which
    order the same way unless rounding makes two different distances
    equal. *)
Definition nearest (axis : list Q) (target : Q) : result nat :=
  if negb (is_unique axis) then Raise InvalidIndexError
  else
    let inc := is_monotonic_increasing axis in
    if negb (inc || is_monotonic_decreasing axis) then Raise ValueError
    else
      let before x := if inc then Qle_bool x target else Qle_bool target x in
      let after x := if inc then Qle_bool target x else Qle_bool x target in
      match last_position before axis, first_position after axis with
      | Some l, Some r =>
          let dl := distance axis target l in
          let dr := distance axis target r in
          if (if inc then Qlt_bool dl dr else Qle_bool dl dr)
          then Ok l else Ok r
      | Some l, None => Ok l
      | None, Some r => Ok r
      | None, None => Raise KeyError
      end.

(** [coord.sel(dim=target, method='nearest')] on a coordinate: the label
    nearest to the target. *)
Definition sel_coord (axis : list Q) (target : Q) : result Q :=
  k <- nearest axis target ;;
  Ok (nth k axis 0%Q).

(** The dataset at one grid cell: the labels of the cell and, for each
    variable, its cells along time. *)
Record Cell : Type := {
  cell_lat : Q;
  cell_lon : Q;
  cell_vars : list (string * list value)
}.

(** [ds.sel(lat=a, lon=b, method='nearest')]. *)
Definition sel (ds : Dataset) (a b : Q) : result Cell :=
  i <- nearest (lat ds) a ;;
  j <- nearest (lon ds) b ;;
  Ok {| cell_lat := nth i (lat ds) 0%Q;
        cell_lon := nth j (lon ds) 0%Q;
        cell_vars :=
          map (fun p => (fst p,
                         map (fun t => snd p t i j)
                             (seq 0 (List.length (time ds)))))
              (data_vars ds) |}.

(** [grid_data(ds, lat_target, lon_target)], lines 107 to 112: the
    nearest label on each axis, then the dataset at these two labels. *)
Definition grid_data (ds : Dataset) (lat_target lon_target : Q)
  : result Cell :=
  lat_idx <- sel_coord (lat ds) lat_target ;;
  lon_idx <- sel_coord (lon ds) lon_target ;;
  sel ds lat_idx lon_idx.

(** ** Rectangles as geometries

    A region is a finite union of closed rectangles with sides along the
    axes.  Near a point the plane falls into four quadrants, and a
    rectangle covers all of a small enough quadrant or none of it; the
    point is in the interior of the region when each of its four quadrants
    is covered by some rectangle. *)

Record box : Type := {
  xmin : Q; xmax : Q; ymin : Q; ymax : Q
}.

Definition region : Type := list box.

(** The rectangle reaches from the coordinate [c] into the side [up]. *)
Definition reaches (lo hi c : Q) (up : bool) : bool :=
  if up then Qle_bool lo c && Qlt_bool c hi
  else Qlt_bool lo c && Qle_bool c hi.

Definition covers_quadrant (p : Q * Q) (east north : bool) (b : box) : bool :=
  reaches (xmin b) (xmax b) (fst p) east
  && reaches (ymin b) (ymax b) (snd p) north.

Definition region_interior (r : region) (p : Q * Q) : bool :=
  forallb (fun q => existsb (covers_quadrant p (fst q) (snd q)) r)
          [(true, true); (true, false); (false, true); (false, false)].

Definition region_covers (r : region) (p : Q * Q) : bool :=
  existsb (fun b => Qle_bool (xmin b) (fst p) && Qle_bool (fst p) (xmax b)
                    && Qle_bool (ymin b) (snd p) && Qle_bool (snd p) (ymax b))
          r.

Definition region_boundary (r : region) (p : Q * Q) : bool :=
  region_covers r p && negb (region_interior r p).

(** ** A small dataset: three latitudes, three longitudes, two times. *)

Local Open Scope string_scope.

Definition axis_10_20_30 : list Q := [10 # 1; 20 # 1; 30 # 1]%Q.

Definition temperature : variable :=
  fun t i j => Val (inject_Z (Z.of_nat (100 * t + 10 * i + j))).

Definition sample : Dataset :=
  {| lat := axis_10_20_30; lon := axis_10_20_30; time := [0; 1]%Z;
     data_vars := [("T", temperature)] |}.

Definition square (lo hi : Q) : box :=
  {| xmin := lo; xmax := hi; ymin := lo; ymax := hi |}.

(** The variable with the cells outside [g] missing: what [where] leaves
    of [var] under the mask of [g]. *)
Definition inside {G : Type} {geo : Geometry G} (ds : Dataset) (g : G)
           (var : variable) : variable :=
  fun t i j =>
    if contains g (nth j (lon ds) 0%Q, nth i (lat ds) 0%Q) then var t i j
    else NaN.


(** ** Axes and cells, for the properties of [grid_data] *)

(** An axis on which a nearest label can be found: it is not empty, its
    labels are distinct, and it is monotonic. *)
Definition usable_axis (axis : list Q) : bool :=
  negb (Nat.eqb (List.length axis) 0)
  && is_unique axis
  && (is_monotonic_increasing axis || is_monotonic_decreasing axis).

(** The order of an axis: increasing or decreasing. *)
Definition ord (inc : bool) (x y : Q) : bool :=
  if inc then Qle_bool x y else Qle_bool y x.

(** The dataset at the grid cell of positions [i] and [j]. *)
Definition cell_at (ds : Dataset) (i j : nat) : Cell :=
  {| cell_lat := nth i (lat ds) 0%Q;
     cell_lon := nth j (lon ds) 0%Q;
     cell_vars :=
       map (fun p => (fst p,
                      map (fun t => snd p t i j)
                          (seq 0 (List.length (time ds)))))
           (data_vars ds) |}.

(** A dataset whose latitudes decrease, as some files store them, with a
    second variable that differs from the first outside a small square. *)
Definition humidity : variable :=
  fun t i j =>
    if Nat.eqb i 1 && Nat.eqb j 1 then temperature t i j else NaN.

Definition north_first : Dataset :=
  {| lat := [30 # 1; 20 # 1; 10 # 1]%Q; lon := axis_10_20_30;
     time := [0; 1]%Z;
     data_vars := [("T", temperature); ("H", humidity)] |}.

(** Two cells hold the same number, or are both missing. *)
Definition same_value (u v : value) : Prop :=
  match u, v with
  | NaN, NaN => True
  | Val p, Val q => p == q
  | _, _ => False
  end.

(** ** The mask, and rectangles seen as shapes *)



(** The point is strictly inside the rectangle. *)
Definition strictly_inside (b : box) (p : Q * Q) : Prop :=
  xmin b < fst p /\ fst p < xmax b /\ ymin b < snd p /\ snd p < ymax b.

(** The point is on one of the four sides of the rectangle. *)
Definition on_side (b : box) (p : Q * Q) : Prop :=
  (xmin b <= fst p /\ fst p <= xmax b /\
   ymin b <= snd p /\ snd p <= ymax b) /\
  (fst p == xmin b \/ fst p == xmax b \/
   snd p == ymin b \/ snd p == ymax b).

(** The rectangle from (10, 10) to (25, 25), and the two halves of the
    rectangle from (10, 10) to (30, 30), which meet along lon = 20. *)
Definition rect_10_25 : box := square (10 # 1) (25 # 1).

Definition west_half : box :=
  {| xmin := 10 # 1; xmax := 20 # 1; ymin := 10 # 1; ymax := 30 # 1 |}.

Definition east_half : box :=
  {| xmin := 20 # 1; xmax := 30 # 1; ymin := 10 # 1; ymax := 30 # 1 |}.

End Merra.

(** * Properties of the tabular aggregator *)

Module AirFacts.
Import Air.

Local Open Scope string_scope.

Lemma Qlt_bool_iff (x y : Q) : Qlt_bool x y = true <-> (x < y)%Q.
Proof.
  unfold Qlt_bool. rewrite negb_true_iff. split.
  - intros H. apply Qnot_le_lt. intros Hle.
    apply Qle_bool_iff in Hle. congruence.
  - intros H. destruct (Qle_bool y x) eqn:E; [|reflexivity].
    apply Qle_bool_iff in E. exfalso. exact (Qlt_not_le _ _ H E).
Qed.

(** ** Selection *)

Lemma select_nil_r (A : Type) (mask : list bool) : select mask (@nil A) = [].
Proof. unfold select. destruct mask; reflexivity. Qed.

Lemma select_cons (A : Type) (b : bool) (mask : list bool) (x : A) (xs : list A) :
  select (b :: mask) (x :: xs) = if b then x :: select mask xs else select mask xs.
Proof. unfold select. simpl. destruct b; reflexivity. Qed.

Lemma select_map_filter (A : Type) (f : A -> bool) (v : list A) :
  select (map f v) v = filter f v.
Proof.
  induction v as [|a v IH]; [reflexivity|].
  simpl map. rewrite select_cons. simpl. rewrite IH. reflexivity.
Qed.

(** Filtering twice, the second mask read off the filtered value column, is
    filtering once with the conjunction. *)
Lemma select_select (A B : Type) (f g : A -> bool) (v : list A) (xs : list B) :
  select (map g (select (map f v) v)) (select (map f v) xs)
  = select (map (fun c => f c && g c) v) xs.
Proof.
  revert xs. induction v as [|a v IH]; intros xs.
  - reflexivity.
  - destruct xs as [|x xs].
    + simpl map. rewrite !select_nil_r. reflexivity.
    + simpl map. rewrite !select_cons. destruct (f a); simpl.
      * rewrite select_cons. destruct (g a); rewrite IH; reflexivity.
      * apply IH.
Qed.

(** ** Comparisons *)

Lemma mapM_cell_gt (v : list cell) (m : list bool) :
  mapM (cell_gt 0) v = Ok m -> m = map positive v.
Proof.
  revert m. induction v as [|c v IH]; simpl; intros m H.
  - congruence.
  - destruct (cell_gt 0 c) as [b|] eqn:Ec; simpl in H; [|discriminate].
    destruct (mapM (cell_gt 0) v) as [bs|]; simpl in H; [|discriminate].
    injection H as <-. rewrite (IH bs eq_refl).
    destruct c; simpl in Ec; try discriminate; injection Ec as <-; reflexivity.
Qed.

Lemma mapM_cell_lt (v : list cell) (m : list bool) :
  mapM (cell_lt (900 # 1)) v = Ok m -> m = map below_900 v.
Proof.
  revert m. induction v as [|c v IH]; simpl; intros m H.
  - congruence.
  - destruct (cell_lt (900 # 1) c) as [b|] eqn:Ec; simpl in H; [|discriminate].
    destruct (mapM (cell_lt (900 # 1)) v) as [bs|]; simpl in H; [|discriminate].
    injection H as <-. rewrite (IH bs eq_refl).
    destruct c; simpl in Ec; try discriminate; injection Ec as <-; reflexivity.
Qed.

Lemma in_range_open_interval (c : cell) :
  in_range c = true <-> in_open_interval c.
Proof.
  unfold in_range, in_open_interval. split.
  - intros H. apply andb_true_iff in H as [Hp Hb].
    destruct c; simpl in Hp, Hb; try discriminate.
    exists q. rewrite Qlt_bool_iff in Hp, Hb. auto.
  - intros (q & -> & H0 & H9). simpl.
    apply andb_true_iff. rewrite !Qlt_bool_iff. auto.
Qed.

Lemma in_range_not_missing (c : cell) : in_range c = true -> isna c = false.
Proof. destruct c; simpl; intros H; try reflexivity; discriminate. Qed.

(** ** Columns by label *)

Lemma filter_map_swap (A B : Type) (P : B -> bool) (g : A -> B) (l : list A) :
  filter P (map g l) = map g (filter (fun a => P (g a)) l).
Proof.
  induction l as [|a l IH]; simpl; [reflexivity|].
  destruct (P (g a)); simpl; rewrite IH; reflexivity.
Qed.

(** A relabelling [f] that keeps [name] apart from the other labels, with a
    transformation [h] of the cells, commutes with reading [name]. *)
Lemma series_map (f : string -> string) (h : list cell -> list cell)
      (name : string) (cols : list (string * list cell)) :
  (forall n, String.eqb (f n) name = String.eqb n name) ->
  series name (map (fun p => (f (fst p), h (snd p))) cols)
  = (c <- series name cols ;; Ok (h c)).
Proof.
  intros Hf. unfold series. rewrite filter_map_swap. simpl.
  rewrite (filter_ext _ (fun p => String.eqb (fst p) name))
    by (intros p; apply Hf).
  destruct (filter _ cols) as [|[n c] [|q rest]]; reflexivity.
Qed.

Lemma series_In (name : string) (cols : list (string * list cell))
      (c : list cell) :
  series name cols = Ok c -> In (name, c) cols.
Proof.
  unfold series. intros H.
  destruct (filter _ cols) as [|[n c0] [|q rest]] eqn:E; try discriminate.
  injection H as ->.
  assert (Hin : In (n, c) (filter (fun p => String.eqb (fst p) name) cols))
    by (rewrite E; left; reflexivity).
  apply filter_In in Hin as [Hin Hn]. simpl in Hn.
  apply String.eqb_eq in Hn. subst n. exact Hin.
Qed.

Lemma series_unique (name : string) (cols : list (string * list cell))
      (c c' : list cell) :
  series name cols = Ok c -> In (name, c') cols -> c' = c.
Proof.
  unfold series. intros H Hin.
  assert (Hf : In (name, c') (filter (fun p => String.eqb (fst p) name) cols))
    by (apply filter_In; split; [exact Hin | apply String.eqb_refl]).
  destruct (filter _ cols) as [|[n c0] [|q rest]]; try discriminate.
  injection H as ->. destruct Hf as [Hf|[]]. congruence.
Qed.

(** ** Forward fill *)

Lemma ffill_from_no_missing (prev : cell) (xs : list cell) :
  Forall (fun c => isna c = false) xs -> ffill_from prev xs = xs.
Proof.
  intros H. revert prev. induction H as [|x xs Hx _ IH]; intros prev; simpl.
  - reflexivity.
  - rewrite Hx, IH. reflexivity.
Qed.

Lemma ffill_from_keeps (prev : cell) (xs : list cell) (k : nat) (x : cell) :
  nth_error xs k = Some x -> isna x = false ->
  nth_error (ffill_from prev xs) k = Some x.
Proof.
  revert prev k. induction xs as [|y ys IH]; intros prev k Hk Hx.
  - destruct k; discriminate.
  - destruct k as [|k]; simpl in *.
    + injection Hk as ->. rewrite Hx. reflexivity.
    + apply IH; assumption.
Qed.

Lemma ffill_from_length (prev : cell) (xs : list cell) :
  List.length (ffill_from prev xs) = List.length xs.
Proof.
  revert prev. induction xs as [|y ys IH]; intros prev; simpl;
    [reflexivity | rewrite IH; reflexivity].
Qed.

(** A missing cell takes the cell filled just before it. *)
Lemma ffill_from_fills (prev : cell) (xs : list cell) (k : nat) (x : cell) :
  nth_error xs (S k) = Some x -> isna x = true ->
  nth_error (ffill_from prev xs) (S k) = nth_error (ffill_from prev xs) k.
Proof.
  revert prev k. induction xs as [|y ys IH]; intros prev k Hk Hx.
  - discriminate.
  - simpl in Hk. destruct k as [|k].
    + destruct ys as [|z zs]; [discriminate|]. simpl in Hk.
      injection Hk as ->. simpl. rewrite Hx. reflexivity.
    + simpl. apply IH; assumption.
Qed.

(** ** Labels of a concatenated frame *)

Lemma existsb_eqb_In (n : string) (l : list string) :
  existsb (String.eqb n) l = true <-> In n l.
Proof.
  rewrite existsb_exists. split.
  - intros (m & Hm & E). apply String.eqb_eq in E. subst. exact Hm.
  - intros H. exists n. split; [exact H | apply String.eqb_refl].
Qed.

Lemma dedup_spec (seen names : list string) :
  NoDup (dedup seen names) /\
  forall n, In n (dedup seen names) -> ~ In n seen.
Proof.
  revert seen. induction names as [|m names IH]; intros seen; simpl.
  - split; [constructor | intros n []].
  - destruct (existsb (String.eqb m) seen) eqn:E.
    + apply IH.
    + destruct (IH (m :: seen)) as [Hnd Hout]. split.
      * constructor; [|exact Hnd].
        intros Hin. apply (Hout m Hin). left. reflexivity.
      * intros n [<-|Hn].
        -- intros Hin. apply existsb_eqb_In in Hin. congruence.
        -- intros Hin. apply (Hout n Hn). right. exact Hin.
Qed.

(** The labels of a concatenation are distinct. *)
Lemma concat_labels_NoDup (dfs : list DataFrame) (df : DataFrame) :
  concat dfs = Ok df -> NoDup (labels df).
Proof.
  unfold concat. destruct dfs as [|d dfs]; [discriminate|].
  intros H. injection H as <-. unfold labels. simpl columns.
  rewrite map_map. simpl. rewrite map_id. apply dedup_spec.
Qed.

(** Pruning keeps them distinct. *)
Lemma drop_labels_NoDup (names : list string) (df df' : DataFrame) :
  NoDup (labels df) -> drop names df = Ok df' -> NoDup (labels df').
Proof.
  unfold drop, labels. intros Hnd H.
  destruct (forallb _ names); [|discriminate]. injection H as <-. simpl.
  induction (columns df) as [|[n c] cols IH]; simpl in *; [constructor|].
  inversion Hnd as [|? ? Hn Hrest]; subst.
  destruct (negb (existsb (String.eqb n) names)); simpl; [|auto].
  constructor; [|auto].
  intros Hin. apply Hn. apply in_map_iff in Hin as (p & Hp & Hin).
  apply filter_In in Hin as [Hin _]. apply in_map_iff. eauto.
Qed.

(** On distinct labels, reading a column finds it or raises [KeyError]. *)
Lemma series_distinct_labels (name : string)
      (cols : list (string * list cell)) :
  NoDup (map fst cols) -> series name cols <> Raise ValueError.
Proof.
  unfold series. intros Hnd.
  destruct (filter _ cols) as [|[n c] [|[m c'] rest]] eqn:E;
    try discriminate.
  exfalso.
  assert (Hn : n = name /\ m = name).
  { split.
    - assert (H : In (n, c) (filter (fun p => String.eqb (fst p) name) cols))
        by (rewrite E; simpl; auto).
      apply filter_In in H as [_ H]. apply String.eqb_eq in H. exact H.
    - assert (H : In (m, c') (filter (fun p => String.eqb (fst p) name) cols))
        by (rewrite E; simpl; auto).
      apply filter_In in H as [_ H]. apply String.eqb_eq in H. exact H. }
  destruct Hn as [-> ->].
  clear -Hnd E. revert E.
  induction cols as [|[k d] cols IH]; simpl in *; [discriminate|].
  inversion Hnd as [|? ? Hk Hrest]; subst.
  destruct (String.eqb k name) eqn:Ek.
  - apply String.eqb_eq in Ek. subst k. intros E. injection E as _ E.
    apply Hk. apply in_map_iff. exists (name, c'). split; [reflexivity|].
    assert (H : In (name, c')
                   (filter (fun p => String.eqb (fst p) name) cols))
      by (rewrite E; left; reflexivity).
    apply filter_In in H as [H _]. exact H.
  - apply IH. exact Hrest.
Qed.

(** ** The stages of [pm] *)

Lemma getitem_loc (name : string) (mask : list bool) (df : DataFrame) :
  getitem name (loc mask df) = (c <- getitem name df ;; Ok (select mask c)).
Proof.
  unfold getitem, loc. simpl.
  apply (series_map (fun n => n) (select mask)). reflexivity.
Qed.

Lemma loc_loc (f g : cell -> bool) (v : list cell) (df : DataFrame) :
  loc (map g (select (map f v) v)) (loc (map f v) df)
  = loc (map (fun c => f c && g c) v) df.
Proof.
  unfold loc. simpl. f_equal.
  - apply select_select.
  - rewrite map_map. apply map_ext. intros [n c]. simpl.
    rewrite select_select. reflexivity.
Qed.

Section Pm.

Variable glob : string -> list string.
Variable read_csv : string -> result DataFrame.
Variable to_datetime : list cell -> result (list cell).

Local Abbreviation pm := (pm glob read_csv to_datetime).
Local Abbreviation read_table := (read_table glob read_csv).
Local Abbreviation finish := (finish to_datetime).

(** A run of [pm] that returns went through the stages: the table was
    read, its value column could be compared, and the rows in range went
    through the last part. *)
Lemma pm_stages (path : string) (drop_flag : bool) (out : DataFrame) :
  pm path drop_flag = Ok out ->
  exists df v,
    read_table path drop_flag = Ok df /\
    getitem "value" df = Ok v /\
    finish (loc (map in_range v) df) = Ok out.
Proof.
  unfold Air.pm, Air.read_table. intros H.
  destruct (load glob read_csv path) as [dfs|]; simpl in *; [|discriminate].
  destruct (concat dfs) as [df0|]; simpl in *; [|discriminate].
  destruct (if drop_flag then drop drop_cols df0 else Ok df0) as [df|];
    simpl in *; [|discriminate].
  exists df. unfold keep_positive in H.
  destruct (getitem "value" df) as [v|] eqn:Ev; simpl in H; [|discriminate].
  exists v. split; [reflexivity|]. split; [reflexivity|].
  destruct (mapM (cell_gt 0) v) as [m1|] eqn:E1; simpl in H; [|discriminate].
  apply mapM_cell_gt in E1. subst m1.
  unfold keep_below_900 in H. rewrite getitem_loc, Ev in H. simpl in H.
  destruct (mapM (cell_lt (900 # 1)) _) as [m2|] eqn:E2; simpl in H;
    [|discriminate].
  apply mapM_cell_lt in E2. subst m2.
  rewrite loc_loc in H. exact H.
Qed.

(** What the last part does to a column other than the date column: it
    is forward-filled, and relabelled when it is the value column. *)
Lemma finish_columns (df out : DataFrame) (n : string) (c : list cell) :
  finish df = Ok out ->
  In (n, c) (columns df) ->
  n <> "datetime" ->
  In (if String.eqb n "value" then "pm2.5" else n, ffill_column c)
     (columns out).
Proof.
  unfold Air.finish, set_index. intros H Hin Hn.
  destruct (getitem "datetime" _) as [col|]; simpl in H; [|discriminate].
  destruct (to_datetime col) as [stamps|]; simpl in H; [|discriminate].
  destruct (getitem "datetime" _) as [idx|]; simpl in H; [|discriminate].
  injection H as <-. simpl.
  apply filter_In. split.
  - apply in_map_iff.
    exists (if String.eqb n "value" then "pm2.5" else n, ffill_column c).
    split.
    + simpl. destruct (String.eqb n "value"); simpl.
      * reflexivity.
      * apply String.eqb_neq in Hn. rewrite Hn. reflexivity.
    + apply in_map_iff. exists (n, ffill_column c). split; [reflexivity|].
      apply in_map_iff. exists (n, c). split; [reflexivity | exact Hin].
  - simpl. destruct (String.eqb n "value"); simpl.
    + reflexivity.
    + apply String.eqb_neq in Hn. rewrite Hn. reflexivity.
Qed.

Lemma getitem_setitem (name : string) (values : list cell) (df : DataFrame) :
  getitem name (setitem name values df)
  = (c <- getitem name df ;; Ok values).
Proof.
  unfold getitem, setitem, series. simpl. rewrite filter_map_swap.
  rewrite (filter_ext _ (fun p => String.eqb (fst p) name))
    by (intros [n c]; simpl; destruct (String.eqb n name) eqn:En; simpl;
        exact En).
  destruct (filter _ (columns df)) as [|[n c] [|q rest]] eqn:E;
    try reflexivity.
  - assert (Hin : In (n, c)
              (filter (fun p => String.eqb (fst p) name) (columns df)))
      by (rewrite E; left; reflexivity).
    apply filter_In in Hin as [_ Hn]. simpl in *. rewrite Hn. reflexivity.
  - simpl. destruct (String.eqb n name); reflexivity.
Qed.

(** The index of the result: the date column, forward-filled and
    converted. *)
Lemma finish_index (df out : DataFrame) :
  finish df = Ok out ->
  exists d,
    getitem "datetime" df = Ok d /\
    to_datetime (ffill_column d) = Ok (index out).
Proof.
  unfold Air.finish, set_index. intros H.
  assert (E : getitem "datetime" (rename "value" "pm2.5" (ffill df))
              = (c <- getitem "datetime" df ;; Ok (ffill_column c))).
  { unfold getitem, rename, ffill. simpl. rewrite map_map. simpl.
    apply (series_map (fun n => if String.eqb n "value" then "pm2.5" else n)
                      ffill_column).
    intros n. destruct (String.eqb n "value") eqn:En; [|reflexivity].
    apply String.eqb_eq in En. subst n. reflexivity. }
  rewrite E in H.
  destruct (getitem "datetime" df) as [d|]; simpl in H; [|discriminate].
  exists d. split; [reflexivity|].
  destruct (to_datetime (ffill_column d)) as [stamps|]; simpl in H;
    [|discriminate].
  rewrite getitem_setitem, E in H. simpl in H.
  injection H as <-. reflexivity.
Qed.

(** C1.  Whenever [pm] returns, the returned table has the value column
    under its new label ["pm2.5"], and every cell of that column is a
    number strictly greater than 0 and strictly less than 900.  The
    second part says the same of what [out["pm2.5"]] reads. *)
Theorem pm_value_in_open_interval (path : string) (drop_flag : bool)
        (out : DataFrame) :
  pm path drop_flag = Ok out ->
  (exists cells,
      In ("pm2.5", cells) (columns out) /\ Forall in_open_interval cells) /\
  (forall cells,
      getitem "pm2.5" out = Ok cells -> Forall in_open_interval cells).
Proof.
  intros H. apply pm_stages in H as (df & v & _ & Hv & Hfin).
  assert (Hin : In ("pm2.5", filter in_range v) (columns out)).
  { apply series_In in Hv.
    assert (Hk : In ("value", select (map in_range v) v)
                    (columns (loc (map in_range v) df))).
    { unfold loc. simpl. apply in_map_iff. exists ("value", v). auto. }
    apply (@finish_columns _ _ _ _ Hfin) in Hk; [|discriminate].
    simpl in Hk. rewrite select_map_filter in Hk.
    unfold ffill_column in Hk. rewrite ffill_from_no_missing in Hk.
    - exact Hk.
    - apply Forall_forall. intros c Hc. apply filter_In in Hc as [_ Hc].
      apply in_range_not_missing. exact Hc. }
  assert (Hall : Forall in_open_interval (filter in_range v)).
  { apply Forall_forall. intros c Hc. apply filter_In in Hc as [_ Hc].
    apply in_range_open_interval. exact Hc. }
  split.
  - exists (filter in_range v). auto.
  - intros cells Hc. unfold getitem in Hc.
    rewrite <- (@series_unique _ _ _ _ Hc Hin). exact Hall.
Qed.

(** C3, as the code has it.  With the metadata kept ([drop=False]), every
    column of the concatenated table other than the value and the date
    column is in the result, cut down to the surviving rows and
    forward-filled: a cell that is not missing is unchanged, and a
    missing cell below the first row takes the cell that the result has
    just above it. *)
Theorem pm_retained_columns (path : string) (out : DataFrame) :
  pm path false = Ok out ->
  exists df v,
    read_table path false = Ok df /\
    getitem "value" df = Ok v /\
    forall n c,
      In (n, c) (columns df) -> n <> "value" -> n <> "datetime" ->
      In (n, ffill_column (select (map in_range v) c)) (columns out) /\
      (forall k x,
          nth_error (select (map in_range v) c) k = Some x ->
          isna x = false ->
          nth_error (ffill_column (select (map in_range v) c)) k = Some x) /\
      (forall k x,
          nth_error (select (map in_range v) c) (S k) = Some x ->
          isna x = true ->
          nth_error (ffill_column (select (map in_range v) c)) (S k)
          = nth_error (ffill_column (select (map in_range v) c)) k).
Proof.
  intros H. apply pm_stages in H as (df & v & Hdf & Hv & Hfin).
  exists df, v. split; [exact Hdf|]. split; [exact Hv|].
  intros n c Hin Hval Hdate. split; [|split].
  - assert (Hk : In (n, select (map in_range v) c)
                    (columns (loc (map in_range v) df))).
    { unfold loc. simpl. apply in_map_iff. exists (n, c). auto. }
    apply (@finish_columns _ _ _ _ Hfin) in Hk; [|exact Hdate].
    apply String.eqb_neq in Hval. rewrite Hval in Hk. exact Hk.
  - intros k x. apply ffill_from_keeps.
  - intros k x. apply ffill_from_fills.
Qed.

(** C6.  When the search under the root finds no [.csv.gz] file, [pm]
    raises (the [ValueError] of [pd.concat] on an empty list) and returns
    no table. *)
Theorem pm_no_files_raises (path : string) (drop_flag : bool) :
  glob (path ++ "**/**/*.csv.gz") = [] ->
  pm path drop_flag = Raise ValueError.
Proof.
  intros H. unfold Air.pm, load. rewrite H. reflexivity.
Qed.

(** C9.  With pruning on ([drop=True]), when one of the seven columns of
    the drop list is not a column of the concatenated table, [pm] raises
    [KeyError]: the missing column is not skipped. *)
Theorem pm_drop_absent_column_raises (path : string)
        (dfs : list DataFrame) (df : DataFrame) (c : string) :
  load glob read_csv path = Ok dfs ->
  concat dfs = Ok df ->
  In c drop_cols ->
  has_label c df = false ->
  pm path true = Raise KeyError.
Proof.
  intros Hload Hcat Hc Habs. unfold Air.pm. rewrite Hload. simpl.
  rewrite Hcat. simpl. unfold drop.
  assert (E : forallb (fun n => has_label n df) drop_cols = false).
  { destruct (forallb _ drop_cols) eqn:E; [|reflexivity].
    rewrite forallb_forall in E. rewrite (E c Hc) in Habs. discriminate. }
  rewrite E. reflexivity.
Qed.

End Pm.

(** ** The archive *)

(** The file with every metadata column, pruned: one reading of 42 is
    left. *)
Lemma pm_value_in_open_interval_witness :
  (exists cells,
      In ("pm2.5", cells) [("pm2.5", [int 42])] /\
      Forall in_open_interval cells) /\
  (forall cells,
      getitem "pm2.5"
              {| index := [Timestamp 2]; columns := [("pm2.5", [int 42])] |}
      = Ok cells ->
      Forall in_open_interval cells).
Proof.
  apply (pm_value_in_open_interval archive_glob archive_read epoch_datetime
           "full/" true
           (out := {| index := [Timestamp 2];
                      columns := [("pm2.5", [int 42])] |})).
  vm_compute. reflexivity.
Defined.

(** C2 fails as stated.  The readings 100, -5, 950 and 300 are stamped 1 to
    4; the result has the two rows stamped 1 and 4 and no entry at the
    stamps 2 and 3 of the rows that failed the filter. *)
Lemma pm_out_of_range_row_has_no_entry :
  read_table archive_glob archive_read "data/" false
  = Ok {| index := RangeIndex 4;
          columns := [("datetime", [int 1; int 2; int 3; int 4]);
                      ("value", [int 100; int (-5); int 950; int 300])] |}
  /\ archive_pm "data/" false
     = Ok {| index := [Timestamp 1; Timestamp 4];
             columns := [("pm2.5", [int 100; int 300])] |}
  /\ ~ In (Timestamp 2) [Timestamp 1; Timestamp 4]
  /\ ~ In (Timestamp 3) [Timestamp 1; Timestamp 4].
Proof.
  split; [vm_compute; reflexivity|].
  split; [vm_compute; reflexivity|].
  split; intros [H|[H|[]]]; discriminate.
Qed.

(** C3 fails as stated.  Both rows of the file survive; the second has no
    location in the file, and has the location of the first in the
    result. *)
Lemma pm_fills_retained_column :
  getitem "location" station_gap = Ok [Str "Lahore"; NaN] /\
  archive_pm "gap/" false
  = Ok {| index := [Timestamp 1; Timestamp 2];
          columns := [("pm2.5", [int 10; int 20]);
                      ("location", [Str "Lahore"; Str "Lahore"])] |}.
Proof. split; vm_compute; reflexivity. Qed.

Lemma pm_retained_columns_witness :
  exists df v,
    read_table archive_glob archive_read "gap/" false = Ok df /\
    getitem "value" df = Ok v /\
    forall n c,
      In (n, c) (columns df) -> n <> "value" -> n <> "datetime" ->
      In (n, ffill_column (select (map in_range v) c))
         [("pm2.5", [int 10; int 20]);
          ("location", [Str "Lahore"; Str "Lahore"])] /\
      (forall k x,
          nth_error (select (map in_range v) c) k = Some x ->
          isna x = false ->
          nth_error (ffill_column (select (map in_range v) c)) k = Some x) /\
      (forall k x,
          nth_error (select (map in_range v) c) (S k) = Some x ->
          isna x = true ->
          nth_error (ffill_column (select (map in_range v) c)) (S k)
          = nth_error (ffill_column (select (map in_range v) c)) k).
Proof.
  apply (pm_retained_columns archive_glob archive_read epoch_datetime "gap/"
           (out := {| index := [Timestamp 1; Timestamp 2];
                      columns := [("pm2.5", [int 10; int 20]);
                                  ("location", [Str "Lahore"; Str "Lahore"])] |})).
  vm_compute. reflexivity.
Defined.

(** No file lies under [none/]. *)
Lemma pm_no_files_raises_witness :
  archive_pm "none/" true = Raise ValueError.
Proof.
  apply (pm_no_files_raises archive_glob archive_read epoch_datetime
           "none/" true).
  vm_compute. reflexivity.
Defined.

(** The file under [gap/] has no [lat] column. *)
Lemma pm_drop_absent_column_raises_witness :
  archive_pm "gap/" true = Raise KeyError.
Proof.
  apply (pm_drop_absent_column_raises archive_glob archive_read epoch_datetime
           "gap/" (dfs := [station_gap])
           (df := {| index := RangeIndex 2; columns := columns station_gap |})
           (c := "lat")).
  - vm_compute. reflexivity.
  - vm_compute. reflexivity.
  - vm_compute. auto.
  - vm_compute. reflexivity.
Defined.

(** * More on the tabular aggregator *)

(** ** The comparisons, with their failure *)

Lemma cell_gt_comparable (c : cell) :
  cell_gt 0 c = if comparable c then Ok (positive c) else Raise TypeError.
Proof. destruct c; reflexivity. Qed.

Lemma cell_lt_comparable (c : cell) :
  cell_lt (900 # 1) c
  = if comparable c then Ok (below_900 c) else Raise TypeError.
Proof. destruct c; reflexivity. Qed.

Lemma mapM_comparable (f : cell -> result bool) (g : cell -> bool)
      (v : list cell) :
  (forall c, f c = if comparable c then Ok (g c) else Raise TypeError) ->
  mapM f v = if forallb comparable v then Ok (map g v) else Raise TypeError.
Proof.
  intros Hf. induction v as [|c v IH]; simpl; [reflexivity|].
  rewrite Hf, IH. destruct (comparable c); simpl; [|reflexivity].
  destruct (forallb comparable v); reflexivity.
Qed.

Lemma forallb_filter (A : Type) (p q : A -> bool) (l : list A) :
  forallb p l = true -> forallb p (filter q l) = true.
Proof.
  induction l as [|a l IH]; simpl; [reflexivity|].
  intros H. apply andb_true_iff in H as [Ha Hl].
  destruct (q a); simpl; [rewrite Ha|]; auto.
Qed.

(** ** The last part of [pm], in one step *)

Lemma getitem_datetime_renamed (df : DataFrame) :
  getitem "datetime" (rename "value" "pm2.5" (ffill df))
  = (c <- getitem "datetime" df ;; Ok (ffill_column c)).
Proof.
  unfold getitem, rename, ffill. simpl. rewrite map_map. simpl.
  apply (series_map (fun n => if String.eqb n "value" then "pm2.5" else n)
                    ffill_column).
  intros n. destruct (String.eqb n "value") eqn:En; [|reflexivity].
  apply String.eqb_eq in En. subst n. reflexivity.
Qed.

Lemma finished_columns (keep : list bool) (stamps idx : list cell)
      (cols : list (string * list cell)) :
  filter (fun p => negb (String.eqb (fst p) "datetime"))
         (columns (setitem "datetime" stamps
                     (rename "value" "pm2.5"
                        (ffill (loc keep {| index := idx;
                                            columns := cols |})))))
  = cleaned_columns keep cols.
Proof.
  unfold cleaned_columns. simpl.
  induction cols as [|[n c] cols IH]; simpl; [reflexivity|].
  destruct (String.eqb n "value") eqn:Ev.
  - apply String.eqb_eq in Ev. subst n. simpl. rewrite IH. reflexivity.
  - destruct (String.eqb n "datetime") eqn:Ed; simpl; rewrite ?Ed, ?Ev;
      simpl; rewrite IH; reflexivity.
Qed.

Section PmClosedForm.

Variable glob : string -> list string.
Variable read_csv : string -> result DataFrame.
Variable to_datetime : list cell -> result (list cell).

Local Abbreviation pm := (pm glob read_csv to_datetime).
Local Abbreviation read_table := (read_table glob read_csv).
Local Abbreviation finish := (finish to_datetime).

Lemma finish_closed_form (keep : list bool) (df : DataFrame) :
  finish (loc keep df)
  = (d <- getitem "datetime" df ;;
     stamps <- to_datetime (ffill_column (select keep d)) ;;
     Ok {| index := stamps;
           columns := cleaned_columns keep (columns df) |}).
Proof.
  unfold Air.finish. rewrite getitem_datetime_renamed, getitem_loc.
  destruct (getitem "datetime" df) as [d|] eqn:Ed; simpl; [|reflexivity].
  destruct (to_datetime (ffill_column (select keep d))) as [stamps|]; simpl;
    [|reflexivity].
  unfold set_index.
  rewrite getitem_setitem, getitem_datetime_renamed, getitem_loc, Ed. simpl.
  f_equal. f_equal. destruct df as [idx cols]. apply finished_columns.
Qed.

(** [pm] in one step: the table, its value column, the comparison of
    every value cell, the conversion of the dates of the rows in range, and
    the cleaned columns. *)
Lemma pm_closed_form (path : string) (drop_flag : bool) :
  pm path drop_flag
  = (df <- read_table path drop_flag ;;
     v <- getitem "value" df ;;
     if forallb comparable v
     then d <- getitem "datetime" df ;;
          stamps <- to_datetime
                      (ffill_column (select (map in_range v) d)) ;;
          Ok {| index := stamps;
                columns := cleaned_columns (map in_range v) (columns df) |}
     else Raise TypeError).
Proof.
  unfold Air.pm, Air.read_table.
  destruct (load glob read_csv path) as [dfs|]; simpl; [|reflexivity].
  destruct (concat dfs) as [df0|]; simpl; [|reflexivity].
  destruct (if drop_flag then drop drop_cols df0 else Ok df0) as [df|];
    simpl; [|reflexivity].
  unfold keep_positive.
  destruct (getitem "value" df) as [v|] eqn:Ev; simpl; [|reflexivity].
  rewrite (mapM_comparable _ positive v cell_gt_comparable).
  destruct (forallb comparable v) eqn:Ec; simpl; [|reflexivity].
  unfold keep_below_900. rewrite getitem_loc, Ev. simpl.
  rewrite (mapM_comparable _ below_900 _ cell_lt_comparable).
  rewrite select_map_filter, (forallb_filter _ positive v Ec). simpl.
  rewrite <- (select_map_filter positive v), loc_loc.
  apply finish_closed_form.
Qed.

End PmClosedForm.

(** ** Labels and columns of the result *)

Lemma has_label_false_getitem (n : string) (df : DataFrame) :
  has_label n df = false -> getitem n df = Raise KeyError.
Proof.
  unfold has_label, labels, getitem, series. intros H.
  assert (E : filter (fun p => String.eqb (fst p) n) (columns df) = []).
  { induction (columns df) as [|[m c] cols IH]; simpl in *; [reflexivity|].
    apply orb_false_iff in H as [Hm Hrest].
    rewrite String.eqb_sym, Hm. apply IH. exact Hrest. }
  rewrite E. reflexivity.
Qed.

(** Where a label of the cleaned columns comes from. *)
Lemma cleaned_label_origin (keep : list bool)
      (cols : list (string * list cell)) (n : string) :
  In n (map fst (cleaned_columns keep cols)) ->
  (n = "pm2.5" /\ In "value" (map fst cols)) \/
  (n <> "value" /\ n <> "datetime" /\ In n (map fst cols)).
Proof.
  unfold cleaned_columns. rewrite map_map. simpl. intros H.
  apply in_map_iff in H as ([m c] & Hn & Hin). simpl in Hn.
  apply filter_In in Hin as [Hin Hd]. simpl in Hd.
  apply negb_true_iff in Hd.
  assert (Hm : In m (map fst cols))
    by (apply in_map_iff; exists (m, c); auto).
  destruct (String.eqb m "value") eqn:Ev.
  - apply String.eqb_eq in Ev. subst. left. auto.
  - subst n. right. repeat split; [| |exact Hm].
    + apply String.eqb_neq. exact Ev.
    + apply String.eqb_neq. exact Hd.
Qed.

Lemma cleaned_columns_In (keep : list bool)
      (cols : list (string * list cell)) (n : string) (c : list cell) :
  In (n, c) (cleaned_columns keep cols) ->
  exists c0, c = ffill_column (select keep c0).
Proof.
  unfold cleaned_columns. intros H.
  apply in_map_iff in H as ([m c0] & E & _). simpl in E.
  injection E as _ <-. exists c0. reflexivity.
Qed.

Lemma cleaned_columns_value (keep : list bool)
      (cols : list (string * list cell)) (v : list cell) :
  In ("value", v) cols ->
  In ("pm2.5", ffill_column (select keep v)) (cleaned_columns keep cols).
Proof.
  intros H. unfold cleaned_columns. apply in_map_iff.
  exists ("value", v). split; [reflexivity|].
  apply filter_In. split; [exact H | reflexivity].
Qed.

Lemma ffill_in_range (v : list cell) :
  ffill_column (select (map in_range v) v) = filter in_range v.
Proof.
  rewrite select_map_filter. unfold ffill_column.
  apply ffill_from_no_missing. apply Forall_forall. intros c Hc.
  apply filter_In in Hc as [_ Hc]. apply in_range_not_missing. exact Hc.
Qed.

(** Projections. *)

Lemma filter_filter_implied (A : Type) (p q : A -> bool) (l : list A) :
  (forall a, p a = true -> q a = true) ->
  filter p (filter q l) = filter p l.
Proof.
  intros H. induction l as [|a l IH]; simpl; [reflexivity|].
  destruct (q a) eqn:Eq; simpl.
  - rewrite IH. reflexivity.
  - destruct (p a) eqn:Ep; [|exact IH].
    rewrite (H a Ep) in Eq. discriminate.
Qed.

Lemma series_kept (n : string) (cols : list (string * list cell)) :
  kept_label n = true ->
  series n (filter (fun p => kept_label (fst p)) cols) = series n cols.
Proof.
  intros Hn. unfold series. rewrite filter_filter_implied; [reflexivity|].
  intros [m c] E. simpl in *. apply String.eqb_eq in E. subst. exact Hn.
Qed.

Lemma cleaned_columns_kept (keep : list bool)
      (cols : list (string * list cell)) :
  cleaned_columns keep (filter (fun p => kept_label (fst p)) cols)
  = filter (fun p => kept_label (fst p)) (cleaned_columns keep cols).
Proof.
  unfold cleaned_columns.
  induction cols as [|[n c] cols IH]; simpl; [reflexivity|].
  destruct (String.eqb n "datetime") eqn:Ed.
  - apply String.eqb_eq in Ed. subst n. simpl. exact IH.
  - destruct (kept_label n) eqn:Ek; simpl; rewrite ?Ed; simpl.
    + destruct (String.eqb n "value") eqn:Ev; simpl.
      * rewrite IH. reflexivity.
      * rewrite Ek, IH. reflexivity.
    + destruct (String.eqb n "value") eqn:Ev; simpl.
      * apply String.eqb_eq in Ev. subst n. discriminate.
      * rewrite Ek. exact IH.
Qed.

(** ** Forward fill, once more *)

Lemma ffill_from_idempotent (prev : cell) (xs : list cell) :
  ffill_from prev (ffill_from prev xs) = ffill_from prev xs.
Proof.
  revert prev. induction xs as [|x xs IH]; intros prev; simpl;
    [reflexivity|].
  destruct (isna x) eqn:Ex.
  - destruct (isna prev); rewrite IH; reflexivity.
  - rewrite Ex, IH. reflexivity.
Qed.

Lemma ffill_from_no_gap (prev : cell) (xs : list cell) (k : nat)
      (x y : cell) :
  nth_error (ffill_from prev xs) k = Some x ->
  nth_error (ffill_from prev xs) (S k) = Some y ->
  isna x = false -> isna y = false.
Proof.
  revert prev k. induction xs as [|a xs IH]; intros prev k Hx Hy Hna.
  - destruct k; discriminate.
  - simpl in Hx, Hy. destruct k as [|k].
    + simpl in Hx. injection Hx as Hx. destruct xs as [|b xs];
        [discriminate|]. simpl in Hy. injection Hy as <-.
      rewrite Hx. destruct (isna b) eqn:Eb; [exact Hna | exact Eb].
    + simpl in Hx. exact (IH _ _ Hx Hy Hna).
Qed.

(** ** Lengths *)

Lemma select_length_eq (A B : Type) (mask : list bool) (xs : list A)
      (ys : list B) :
  List.length xs = List.length ys ->
  List.length (select mask xs) = List.length (select mask ys).
Proof.
  revert xs ys. induction mask as [|b mask IH]; intros xs ys H.
  - reflexivity.
  - destruct xs as [|x xs], ys as [|y ys]; simpl in H; try discriminate.
    + rewrite !select_nil_r. reflexivity.
    + rewrite !select_cons. destruct b; simpl; auto.
Qed.

Lemma column_or_missing_length (n : string) (df : DataFrame) :
  rectangular df -> List.length (column_or_missing n df) = nrows df.
Proof.
  unfold rectangular, column_or_missing. intros H.
  destruct (find _ (columns df)) as [[m c]|] eqn:E.
  - apply find_some in E as [Hin _].
    rewrite Forall_forall in H. exact (H _ Hin).
  - apply repeat_length.
Qed.

Lemma concat_rectangular (dfs : list DataFrame) (df : DataFrame) :
  Forall rectangular dfs -> concat dfs = Ok df -> rectangular df.
Proof.
  intros Hall H. unfold concat in H.
  assert (E : df = {| index := RangeIndex (list_sum (map nrows dfs));
                      columns :=
                        map (fun n => (n, flat_map (column_or_missing n) dfs))
                            (dedup [] (flat_map labels dfs)) |})
    by (destruct dfs; [discriminate | congruence]).
  subst df. unfold rectangular, nrows. simpl.
  apply Forall_forall. intros [n c] Hin.
  apply in_map_iff in Hin as (m & E & _). injection E as _ <-. simpl.
  unfold RangeIndex. rewrite length_map, length_seq.
  clear H. induction Hall as [|d dfs Hd _ IH]; simpl; [reflexivity|].
  rewrite length_app, IH, (column_or_missing_length _ Hd). reflexivity.
Qed.

Lemma mapM_In (A B : Type) (f : A -> result B) (xs : list A) (ys : list B) :
  mapM f xs = Ok ys ->
  forall y, In y ys -> exists x, In x xs /\ f x = Ok y.
Proof.
  revert ys. induction xs as [|x xs IH]; simpl; intros ys H y Hy.
  - injection H as <-. destruct Hy.
  - destruct (f x) as [z|] eqn:Ez; simpl in H; [|discriminate].
    destruct (mapM f xs) as [zs|]; simpl in H; [|discriminate].
    injection H as <-. destruct Hy as [<-|Hy].
    + exists x. auto.
    + destruct (IH zs eq_refl y Hy) as (x' & Hx' & E). exists x'. auto.
Qed.

Lemma mapM_app_raise (A B : Type) (f : A -> result B) (before after : list A)
      (x : A) (ys : list B) (e : exn) :
  mapM f before = Ok ys -> f x = Raise e ->
  mapM f (before ++ x :: after) = Raise e.
Proof.
  revert ys. induction before as [|a before IH]; simpl; intros ys H Hx.
  - rewrite Hx. reflexivity.
  - destruct (f a) as [z|]; simpl in *; [|discriminate].
    destruct (mapM f before) as [zs|]; simpl in *; [|discriminate].
    rewrite (IH zs eq_refl Hx). reflexivity.
Qed.

(** ** Behaviour of [pm] *)

(** X1.  Forward fill twice is forward fill once. *)
Theorem ffill_idempotent (df : DataFrame) : ffill (ffill df) = ffill df.
Proof.
  unfold ffill. simpl. f_equal. rewrite map_map. apply map_ext.
  intros [n c]. simpl. unfold ffill_column.
  rewrite ffill_from_idempotent. reflexivity.
Qed.

Section PmBehaviour.

Variable glob : string -> list string.
Variable read_csv : string -> result DataFrame.
Variable to_datetime : list cell -> result (list cell).

Local Abbreviation pm := (pm glob read_csv to_datetime).
Local Abbreviation read_table := (read_table glob read_csv).
Local Abbreviation load := (load glob read_csv).

Lemma read_table_pruned (path : string) (df : DataFrame) :
  read_table path true = Ok df ->
  exists df0,
    read_table path false = Ok df0 /\
    index df = index df0 /\
    columns df = filter (fun p => kept_label (fst p)) (columns df0).
Proof.
  unfold Air.read_table. intros H.
  destruct (load path) as [dfs|]; simpl in *; [|discriminate].
  destruct (concat dfs) as [df0|]; simpl in *; [|discriminate].
  exists df0. split; [reflexivity|]. unfold drop in H.
  destruct (forallb _ drop_cols); [|discriminate].
  injection H as <-. split; reflexivity.
Qed.

Lemma read_table_concat (path : string) (drop_flag : bool) (df : DataFrame) :
  read_table path drop_flag = Ok df ->
  exists dfs df0,
    load path = Ok dfs /\ concat dfs = Ok df0 /\
    index df = index df0 /\
    (forall p, In p (columns df) -> In p (columns df0)).
Proof.
  unfold Air.read_table. intros H.
  destruct (Air.load glob read_csv path) as [dfs|] eqn:El; simpl in *;
    [|discriminate].
  destruct (concat dfs) as [df0|] eqn:Ec; simpl in *; [|discriminate].
  exists dfs, df0. split; [reflexivity|]. split; [exact Ec|].
  destruct drop_flag.
  - unfold drop in H. destruct (forallb _ drop_cols); [|discriminate].
    injection H as <-. simpl. split; [reflexivity|].
    intros p Hp. apply filter_In in Hp. tauto.
  - injection H as <-. auto.
Qed.

Lemma read_table_distinct_labels (path : string) (drop_flag : bool)
      (df : DataFrame) :
  read_table path drop_flag = Ok df -> NoDup (labels df).
Proof.
  unfold Air.read_table. intros H.
  destruct (load path) as [dfs|]; simpl in *; [|discriminate].
  destruct (concat dfs) as [df0|] eqn:E; simpl in *; [|discriminate].
  apply concat_labels_NoDup in E. destruct drop_flag.
  - exact (@drop_labels_NoDup _ _ _ E H).
  - injection H as <-. exact E.
Qed.

(** X2.  [pm] returns exactly when the files load and concatenate (and,
    with pruning, hold the seven columns), the table has a value column
    whose cells can all be compared with a number and a date column, and
    the dates of the rows in range convert; the converted dates are then
    the index of the result and the cleaned columns are its columns. *)
Theorem pm_returns_iff (path : string) (drop_flag : bool) (out : DataFrame) :
  pm path drop_flag = Ok out <->
  exists df v d,
    read_table path drop_flag = Ok df /\
    getitem "value" df = Ok v /\
    forallb comparable v = true /\
    getitem "datetime" df = Ok d /\
    to_datetime (ffill_column (select (map in_range v) d)) = Ok (index out) /\
    columns out = cleaned_columns (map in_range v) (columns df).
Proof.
  rewrite pm_closed_form. split.
  - intros H.
    destruct (read_table path drop_flag) as [df|]; simpl in H;
      [|discriminate].
    destruct (getitem "value" df) as [v|] eqn:Ev; simpl in H;
      [|discriminate].
    destruct (forallb comparable v) eqn:Ec; [|discriminate].
    destruct (getitem "datetime" df) as [d|] eqn:Ed; simpl in H;
      [|discriminate].
    destruct (to_datetime _) as [stamps|] eqn:Et; simpl in H;
      [|discriminate].
    injection H as <-. exists df, v, d. simpl. auto 10.
  - intros (df & v & d & Hdf & Hv & Hc & Hd & Ht & Hcols).
    rewrite Hdf. simpl. rewrite Hv. simpl. rewrite Hc, Hd. simpl.
    rewrite Ht. simpl. destruct out as [idx cols]. simpl in *.
    rewrite Hcols. reflexivity.
Qed.

(** X3.  With pruning ([drop=True]), none of the seven labels of the drop
    list is a label of the result. *)
Theorem pm_pruned_has_no_metadata (path : string) (out : DataFrame) :
  pm path true = Ok out ->
  Forall (fun n => ~ In n (labels out)) drop_cols.
Proof.
  rewrite pm_closed_form. intros H.
  destruct (read_table path true) as [df|] eqn:Edf; simpl in H;
    [|discriminate].
  destruct (getitem "value" df) as [v|]; simpl in H; [|discriminate].
  destruct (forallb comparable v); [|discriminate].
  destruct (getitem "datetime" df) as [d|]; simpl in H; [|discriminate].
  destruct (to_datetime _) as [stamps|]; simpl in H; [|discriminate].
  injection H as <-. unfold labels. simpl.
  apply read_table_pruned in Edf as (df0 & _ & _ & Hcols).
  apply Forall_forall. intros n Hn Hin.
  apply cleaned_label_origin in Hin as [[-> _]|(_ & _ & Hin)].
  - simpl in Hn. repeat (destruct Hn as [Hn|Hn]; [discriminate|]).
    exact Hn.
  - rewrite Hcols in Hin. apply in_map_iff in Hin as ([m c] & <- & Hin).
    apply filter_In in Hin as [_ Hk]. apply existsb_eqb_In in Hn.
    unfold kept_label in Hk. simpl fst in *. apply negb_true_iff in Hk.
    congruence.
Qed.

(** X4.  Whatever the flag, the result has a column labelled ["pm2.5"]
    and no column labelled ["value"] or ["datetime"]. *)
Theorem pm_result_labels (path : string) (drop_flag : bool)
        (out : DataFrame) :
  pm path drop_flag = Ok out ->
  In "pm2.5" (labels out) /\
  ~ In "value" (labels out) /\
  ~ In "datetime" (labels out).
Proof.
  rewrite pm_closed_form. intros H.
  destruct (read_table path drop_flag) as [df|]; simpl in H; [|discriminate].
  destruct (getitem "value" df) as [v|] eqn:Ev; simpl in H; [|discriminate].
  destruct (forallb comparable v); [|discriminate].
  destruct (getitem "datetime" df) as [d|]; simpl in H; [|discriminate].
  destruct (to_datetime _) as [stamps|]; simpl in H; [|discriminate].
  injection H as <-. unfold labels. simpl. split; [|split].
  - apply series_In in Ev.
    apply (cleaned_columns_value (map in_range v)) in Ev.
    apply in_map_iff. eexists. split; [|exact Ev]. reflexivity.
  - intros Hin.
    apply cleaned_label_origin in Hin as [[E _]|(E & _)];
      [discriminate | congruence].
  - intros Hin.
    apply cleaned_label_origin in Hin as [[E _]|(_ & E & _)];
      [discriminate | congruence].
Qed.

(** X5.  Pruning is a projection: when [pm] returns with [drop=True], it
    returns with [drop=False] too, with the same index, and the pruned
    result is the full result without the columns of the drop list. *)
Theorem pm_pruning_is_projection (path : string) (out : DataFrame) :
  pm path true = Ok out ->
  exists full,
    pm path false = Ok full /\
    index full = index out /\
    columns out = filter (fun p => kept_label (fst p)) (columns full).
Proof.
  rewrite !pm_closed_form. intros H.
  destruct (read_table path true) as [df|] eqn:Edf; simpl in H;
    [|discriminate].
  apply read_table_pruned in Edf as (df0 & Hdf0 & _ & Hcols).
  rewrite Hdf0. simpl. unfold getitem in *. rewrite Hcols in H.
  rewrite !series_kept in H by reflexivity.
  destruct (series "value" (columns df0)) as [v|]; simpl in *;
    [|discriminate].
  destruct (forallb comparable v); [|discriminate].
  destruct (series "datetime" (columns df0)) as [d|]; simpl in *;
    [|discriminate].
  destruct (to_datetime _) as [stamps|]; simpl in *; [|discriminate].
  injection H as <-. eexists. split; [reflexivity|]. simpl.
  split; [reflexivity|]. apply cleaned_columns_kept.
Qed.

(** X6.  The value column is required: when the table has none, [pm]
    raises [KeyError]. *)
Theorem pm_missing_value_column (path : string) (drop_flag : bool)
        (df : DataFrame) :
  read_table path drop_flag = Ok df ->
  has_label "value" df = false ->
  pm path drop_flag = Raise KeyError.
Proof.
  intros Hdf H. rewrite pm_closed_form, Hdf. simpl.
  rewrite (has_label_false_getitem _ _ H). reflexivity.
Qed.

(** X7.  The date column is required: when the table has a value column
    whose cells can be compared and no date column, [pm] raises
    [KeyError], after the filters and the forward fill. *)
Theorem pm_missing_datetime_column (path : string) (drop_flag : bool)
        (df : DataFrame) (v : list cell) :
  read_table path drop_flag = Ok df ->
  getitem "value" df = Ok v ->
  forallb comparable v = true ->
  has_label "datetime" df = false ->
  pm path drop_flag = Raise KeyError.
Proof.
  intros Hdf Hv Hc H. rewrite pm_closed_form, Hdf. simpl. rewrite Hv. simpl.
  rewrite Hc, (has_label_false_getitem _ _ H). reflexivity.
Qed.

(** X8.  A string in the value column makes [pm] raise [TypeError],
    wherever it stands and whatever the other cells are. *)
Theorem pm_text_value_raises (path : string) (drop_flag : bool)
        (df : DataFrame) (v : list cell) (s : string) :
  read_table path drop_flag = Ok df ->
  getitem "value" df = Ok v ->
  In (Str s) v ->
  pm path drop_flag = Raise TypeError.
Proof.
  intros Hdf Hv Hs. rewrite pm_closed_form, Hdf. simpl. rewrite Hv. simpl.
  destruct (forallb comparable v) eqn:Ec; [|reflexivity].
  rewrite forallb_forall in Ec. specialize (Ec _ Hs). discriminate.
Qed.

(** X9.  One file that cannot be read aborts the whole call: when the
    files before it are read and [read_csv] raises on it, [pm] raises the
    same exception, whatever follows. *)
Theorem pm_file_failure_aborts (path : string) (drop_flag : bool)
        (before after : list string) (file : string)
        (dfs : list DataFrame) (e : exn) :
  glob (path ++ "**/**/*.csv.gz") = (before ++ file :: after)%list ->
  mapM read_csv before = Ok dfs ->
  read_csv file = Raise e ->
  pm path drop_flag = Raise e.
Proof.
  intros Hg Hb Hf. unfold Air.pm, Air.load. rewrite Hg.
  rewrite (mapM_app_raise _ _ after _ Hb Hf). reflexivity.
Qed.

(** X10.  Rectangular files give a rectangular result: when every file
    read has one cell per row in each column, every column of the result
    has as many cells as the pollutant column; and so has the index, when
    [to_datetime] returns as many dates as it is given cells. *)
Theorem pm_result_rectangular (path : string) (drop_flag : bool)
        (out : DataFrame) :
  (forall file df,
      In file (glob (path ++ "**/**/*.csv.gz")) ->
      read_csv file = Ok df -> rectangular df) ->
  pm path drop_flag = Ok out ->
  exists cells,
    In ("pm2.5", cells) (columns out) /\
    Forall (fun p => List.length (snd p) = List.length cells) (columns out) /\
    ((forall c stamps,
         to_datetime c = Ok stamps -> List.length stamps = List.length c) ->
     nrows out = List.length cells).
Proof.
  intros Hfiles H. rewrite pm_closed_form in H.
  destruct (read_table path drop_flag) as [df|] eqn:Edf; simpl in H;
    [|discriminate].
  destruct (getitem "value" df) as [v|] eqn:Ev; simpl in H; [|discriminate].
  destruct (forallb comparable v); [|discriminate].
  destruct (getitem "datetime" df) as [d|] eqn:Ed; simpl in H;
    [|discriminate].
  destruct (to_datetime _) as [stamps|] eqn:Et; simpl in H; [|discriminate].
  injection H as <-. simpl.
  apply read_table_concat in Edf as (dfs & df0 & Hload & Hcat & Hidx & Hsub).
  assert (Hrect : rectangular df0).
  { apply (concat_rectangular (dfs := dfs)); [|exact Hcat].
    apply Forall_forall. intros f Hf.
    destruct (mapM_In _ _ Hload f Hf) as (file & Hin & Hread).
    exact (Hfiles file f Hin Hread). }
  assert (Hlen : forall n c, In (n, c) (columns df) ->
                             List.length c = List.length v).
  { unfold rectangular in Hrect. rewrite Forall_forall in Hrect.
    intros n c Hin. apply series_In in Ev.
    transitivity (nrows df0);
      [exact (Hrect _ (Hsub _ Hin)) | symmetry; exact (Hrect _ (Hsub _ Ev))]. }
  exists (ffill_column (select (map in_range v) v)). split; [|split].
  - apply cleaned_columns_value. apply series_In. exact Ev.
  - apply Forall_forall. intros [n c] Hin. simpl.
    unfold cleaned_columns in Hin.
    apply in_map_iff in Hin as ([m c0] & E & Hin). simpl in E.
    injection E as _ <-. apply filter_In in Hin as [Hin _].
    unfold ffill_column. rewrite !ffill_from_length.
    apply select_length_eq. exact (Hlen _ _ Hin).
  - intros Hdates. unfold nrows. simpl. rewrite (Hdates _ _ Et).
    unfold ffill_column. rewrite !ffill_from_length.
    apply select_length_eq. apply series_In in Ed. exact (Hlen _ _ Ed).
Qed.

(** X11.  No gap below a value: in every column of the result, the cell
    under a cell that is not missing is not missing either. *)
Theorem pm_no_gap_below_value (path : string) (drop_flag : bool)
        (out : DataFrame) (n : string) (c : list cell) (k : nat)
        (x y : cell) :
  pm path drop_flag = Ok out ->
  In (n, c) (columns out) ->
  nth_error c k = Some x ->
  nth_error c (S k) = Some y ->
  isna x = false ->
  isna y = false.
Proof.
  rewrite pm_closed_form. intros H Hin Hx Hy Hna.
  destruct (read_table path drop_flag) as [df|]; simpl in H; [|discriminate].
  destruct (getitem "value" df) as [v|]; simpl in H; [|discriminate].
  destruct (forallb comparable v); [|discriminate].
  destruct (getitem "datetime" df) as [d|]; simpl in H; [|discriminate].
  destruct (to_datetime _) as [stamps|]; simpl in H; [|discriminate].
  injection H as <-. simpl in Hin.
  apply cleaned_columns_In in Hin as (c0 & ->).
  exact (ffill_from_no_gap _ _ _ Hx Hy Hna).
Qed.

(** X12.  The pollutant column of the result is the in-range values of
    the value columns of the files, in the order of the files and, within
    a file, of its rows; a file without a value column adds nothing. *)
Theorem pm_values_in_file_order (path : string) (drop_flag : bool)
        (out : DataFrame) (dfs : list DataFrame) :
  pm path drop_flag = Ok out ->
  load path = Ok dfs ->
  In ("pm2.5",
      filter in_range (flat_map (column_or_missing "value") dfs))
     (columns out).
Proof.
  rewrite pm_closed_form. intros H Hload.
  destruct (read_table path drop_flag) as [df|] eqn:Edf; simpl in H;
    [|discriminate].
  destruct (getitem "value" df) as [v|] eqn:Ev; simpl in H; [|discriminate].
  destruct (forallb comparable v); [|discriminate].
  destruct (getitem "datetime" df) as [d|]; simpl in H; [|discriminate].
  destruct (to_datetime _) as [stamps|]; simpl in H; [|discriminate].
  injection H as <-. simpl.
  apply read_table_concat in Edf as (dfs' & df0 & Hload' & Hcat & _ & Hsub).
  rewrite Hload in Hload'. injection Hload' as <-.
  apply series_In in Ev. pose proof (Hsub _ Ev) as Hin0.
  assert (E : v = flat_map (column_or_missing "value") dfs).
  { unfold concat in Hcat. destruct dfs as [|d0 dfs]; [discriminate|].
    injection Hcat as <-. simpl in Hin0.
    apply in_map_iff in Hin0 as (m & E & _). injection E as -> <-.
    reflexivity. }
  rewrite <- E, <- ffill_in_range.
  apply cleaned_columns_value. exact Ev.
Qed.

(** C2, as the code has it.  A row whose value fails the range filter (it
    is not a number strictly between 0 and 900) is removed, not turned into
    a gap and filled: every column of the result is the column of the table
    cut down to the rows whose value is in range and then forward-filled,
    with the value column relabelled; the pollutant column is so the
    in-range values of the table, in order, and the index is the conversion
    of the date cells of the rows in range alone (forward-filled among
    themselves). *)
Theorem pm_removes_rows_out_of_range (path : string) (drop_flag : bool)
        (out : DataFrame) :
  pm path drop_flag = Ok out ->
  exists df v d,
    read_table path drop_flag = Ok df /\
    getitem "value" df = Ok v /\
    getitem "datetime" df = Ok d /\
    In ("pm2.5", filter in_range v) (columns out) /\
    columns out = cleaned_columns (map in_range v) (columns df) /\
    to_datetime (ffill_column (select (map in_range v) d))
    = Ok (index out).
Proof.
  rewrite pm_closed_form. intros H.
  destruct (read_table path drop_flag) as [df|] eqn:Edf; simpl in H;
    [|discriminate].
  destruct (getitem "value" df) as [v|] eqn:Ev; simpl in H; [|discriminate].
  destruct (forallb comparable v); [|discriminate].
  destruct (getitem "datetime" df) as [d|] eqn:Ed; simpl in H;
    [|discriminate].
  destruct (to_datetime _) as [stamps|] eqn:Et; simpl in H; [|discriminate].
  injection H as <-. exists df, v, d. simpl.
  split; [reflexivity|]. split; [exact Ev|]. split; [exact Ed|].
  split; [|split; [reflexivity | exact Et]].
  rewrite <- ffill_in_range. apply cleaned_columns_value.
  apply series_In. exact Ev.
Qed.

End PmBehaviour.

(** ** The archives, once more *)

Lemma pm_pruned_has_no_metadata_witness :
  Forall (fun n =>
            ~ In n (labels {| index := [Timestamp 2];
                              columns := [("pm2.5", [int 42])] |}))
         drop_cols.
Proof.
  apply (pm_pruned_has_no_metadata archive_glob archive_read epoch_datetime
           "full/").
  vm_compute. reflexivity.
Defined.

Lemma pm_result_labels_witness :
  In "pm2.5" (labels {| index := [Timestamp 1; Timestamp 2];
                        columns := [("pm2.5", [int 10; int 20]);
                                    ("location",
                                     [Str "Lahore"; Str "Lahore"])] |}) /\
  ~ In "value" (labels {| index := [Timestamp 1; Timestamp 2];
                          columns := [("pm2.5", [int 10; int 20]);
                                      ("location",
                                       [Str "Lahore"; Str "Lahore"])] |}) /\
  ~ In "datetime" (labels {| index := [Timestamp 1; Timestamp 2];
                             columns := [("pm2.5", [int 10; int 20]);
                                         ("location",
                                          [Str "Lahore"; Str "Lahore"])] |}).
Proof.
  apply (pm_result_labels archive_glob archive_read epoch_datetime
           "gap/" false).
  vm_compute. reflexivity.
Defined.

Lemma pm_pruning_is_projection_witness :
  exists full,
    archive_pm "full/" false = Ok full /\
    index full = [Timestamp 2] /\
    [("pm2.5", [int 42])]
    = filter (fun p => kept_label (fst p)) (columns full).
Proof.
  apply (pm_pruning_is_projection archive_glob archive_read epoch_datetime
           "full/"
           (out := {| index := [Timestamp 2];
                      columns := [("pm2.5", [int 42])] |})).
  vm_compute. reflexivity.
Defined.

(** The file under [blank/] has no value column. *)
Lemma pm_missing_value_column_witness :
  pm broken_glob broken_read epoch_datetime "blank/" false = Raise KeyError.
Proof.
  apply (@pm_missing_value_column broken_glob broken_read epoch_datetime
           "blank/" false
           {| index := RangeIndex 1; columns := columns station_blank |});
    vm_compute; reflexivity.
Defined.

(** The file under [undated/] has no date column. *)
Lemma pm_missing_datetime_column_witness :
  pm broken_glob broken_read epoch_datetime "undated/" false
  = Raise KeyError.
Proof.
  apply (@pm_missing_datetime_column broken_glob broken_read epoch_datetime
           "undated/" false
           {| index := RangeIndex 1; columns := columns station_undated |}
           [int 10]);
    vm_compute; reflexivity.
Defined.

(** The file under [text/] has ["n/a"] as its second value. *)
Lemma pm_text_value_raises_witness :
  pm broken_glob broken_read epoch_datetime "text/" false = Raise TypeError.
Proof.
  apply (@pm_text_value_raises broken_glob broken_read epoch_datetime
           "text/" false
           {| index := RangeIndex 2; columns := columns station_text |}
           [int 10; Str "n/a"] "n/a").
  - vm_compute. reflexivity.
  - vm_compute. reflexivity.
  - right. left. reflexivity.
Defined.

(** The second of the three files under [torn/] cannot be read. *)
Lemma pm_file_failure_aborts_witness :
  pm broken_glob broken_read epoch_datetime "torn/" true = Raise OSError.
Proof.
  apply (@pm_file_failure_aborts broken_glob broken_read epoch_datetime
           "torn/" true
           ["torn/a.csv.gz"] ["torn/c.csv.gz"] "torn/missing.csv.gz"
           [station_a] OSError).
  - vm_compute. reflexivity.
  - vm_compute. reflexivity.
  - vm_compute. reflexivity.
Defined.

Lemma pm_result_rectangular_witness :
  exists cells,
    In ("pm2.5", cells)
       [("pm2.5", [int 10; int 20]);
        ("location", [Str "Lahore"; Str "Lahore"])] /\
    Forall (fun p => List.length (snd p) = List.length cells)
           [("pm2.5", [int 10; int 20]);
            ("location", [Str "Lahore"; Str "Lahore"])] /\
    ((forall c stamps,
         epoch_datetime c = Ok stamps ->
         List.length stamps = List.length c) ->
     nrows {| index := [Timestamp 1; Timestamp 2];
              columns := [("pm2.5", [int 10; int 20]);
                          ("location", [Str "Lahore"; Str "Lahore"])] |}
     = List.length cells).
Proof.
  apply (pm_result_rectangular archive_glob archive_read epoch_datetime
           "gap/" false
           (out := {| index := [Timestamp 1; Timestamp 2];
                      columns := [("pm2.5", [int 10; int 20]);
                                  ("location",
                                   [Str "Lahore"; Str "Lahore"])] |})).
  - intros file df Hin Hread. vm_compute in Hin.
    destruct Hin as [<-|[]]. vm_compute in Hread. injection Hread as <-.
    repeat constructor.
  - vm_compute. reflexivity.
Defined.

Lemma pm_no_gap_below_value_witness :
  isna (Str "Lahore") = false.
Proof.
  apply (@pm_no_gap_below_value archive_glob archive_read epoch_datetime
           "gap/" false
           {| index := [Timestamp 1; Timestamp 2];
              columns := [("pm2.5", [int 10; int 20]);
                          ("location", [Str "Lahore"; Str "Lahore"])] |}
           "location" [Str "Lahore"; Str "Lahore"]
           0%nat (Str "Lahore") (Str "Lahore")).
  - vm_compute. reflexivity.
  - right. left. reflexivity.
  - reflexivity.
  - reflexivity.
  - reflexivity.
Defined.

Lemma pm_values_in_file_order_witness :
  In ("pm2.5",
      filter in_range
             (flat_map (column_or_missing "value")
                       [station_a; station_b; station_c]))
     [("pm2.5", [int 100; int 300])].
Proof.
  apply (pm_values_in_file_order archive_glob archive_read epoch_datetime
           "data/" false
           (out := {| index := [Timestamp 1; Timestamp 4];
                      columns := [("pm2.5", [int 100; int 300])] |})).
  - vm_compute. reflexivity.
  - vm_compute. reflexivity.
Defined.

(** Of the readings 100, -5, 950 and 300, the first and the last are left,
    in every column and in the index. *)
Lemma pm_removes_rows_out_of_range_witness :
  exists df v d,
    read_table archive_glob archive_read "data/" false = Ok df /\
    getitem "value" df = Ok v /\
    getitem "datetime" df = Ok d /\
    In ("pm2.5", filter in_range v) [("pm2.5", [int 100; int 300])] /\
    [("pm2.5", [int 100; int 300])]
    = cleaned_columns (map in_range v) (columns df) /\
    epoch_datetime (ffill_column (select (map in_range v) d))
    = Ok [Timestamp 1; Timestamp 4].
Proof.
  apply (pm_removes_rows_out_of_range archive_glob archive_read epoch_datetime
           "data/" false
           (out := {| index := [Timestamp 1; Timestamp 4];
                      columns := [("pm2.5", [int 100; int 300])] |})).
  vm_compute. reflexivity.
Defined.

End AirFacts.

(** * Properties of the gridded helpers *)

Module MerraFacts.
Import Merra.

Local Open Scope string_scope.
Local Open Scope list_scope.

(** ** Regions of rectangles are geometries *)

Lemma region_interior_not_boundary (r : region) (p : Q * Q) :
  region_interior r p = true -> region_boundary r p = false.
Proof.
  unfold region_boundary. intros ->. apply andb_false_r.
Qed.

#[export] Instance region_geometry : Geometry region := {|
  union_all := fun rs => Ok (List.concat rs);
  empty_collection := [];
  contains := region_interior;
  on_boundary := region_boundary;
  union_all_nil := eq_refl;
  contains_empty := fun p => eq_refl;
  contains_interior := region_interior_not_boundary
|}.

(** ** The mask of [mean_polygon] *)

Lemma combine_app_same (A B : Type) (l1 l2 : list A) (m1 m2 : list B) :
  List.length l1 = List.length m1 ->
  combine (l1 ++ l2) (m1 ++ m2) = combine l1 m1 ++ combine l2 m2.
Proof.
  revert m1. induction l1 as [|a l1 IH]; intros [|b m1] H; simpl in *;
    try discriminate; [reflexivity|].
  rewrite IH by lia. reflexivity.
Qed.

Lemma combine_const (A B : Type) (l : list A) (b : B) :
  combine l (map (fun _ => b) l) = map (fun a => (a, b)) l.
Proof.
  induction l as [|a l IH]; simpl; [reflexivity | rewrite IH; reflexivity].
Qed.

Lemma nth_map_lt (A B : Type) (f : A -> B) (l : list A) (i : nat)
      (d : B) (d' : A) :
  (i < List.length l)%nat -> nth i (map f l) d = f (nth i l d').
Proof.
  revert i. induction l as [|a l IH]; intros [|i] H; simpl in *;
    try lia; [reflexivity | apply IH; lia].
Qed.

(** The points of the grid, in the order of the flattened mask: for each
    latitude, each longitude, as the pair (lon, lat). *)
Lemma points_meshgrid (x y : list Q) :
  column_stack (ravel (fst (meshgrid x y))) (ravel (snd (meshgrid x y)))
  = flat_map (fun b => map (fun a => (a, b)) x) y.
Proof.
  unfold column_stack, ravel, meshgrid. simpl.
  induction y as [|b y IH]; simpl; [reflexivity|].
  rewrite combine_app_same by (rewrite length_map; reflexivity).
  rewrite combine_const, IH. reflexivity.
Qed.

(** Cutting a concatenation of rows of one length back into rows. *)
Lemma row_of_flat (A B : Type) (row : B -> list A) (n : nat) (ys : list B)
      (i : nat) (d : B) :
  (forall b, List.length (row b) = n) ->
  (i < List.length ys)%nat ->
  firstn n (skipn (i * n) (flat_map row ys)) = row (nth i ys d).
Proof.
  intros Hrow. revert i. induction ys as [|b ys IH]; intros i Hi; simpl in Hi.
  - lia.
  - destruct i as [|i]; simpl.
    + rewrite firstn_app, Hrow, Nat.sub_diag. simpl.
      rewrite app_nil_r. rewrite <- (Hrow b). apply firstn_all.
    + rewrite skipn_app, Hrow.
      replace (n + i * n - n)%nat with (i * n)%nat by lia.
      rewrite skipn_all2 by (rewrite Hrow; lia). simpl.
      apply IH. lia.
Qed.

Section Mask.

Context {G : Type} {geo : Geometry G}.

(** The reshaped mask holds, at row [i] and column [j], the test of the
    point (lon[j], lat[i]). *)
Lemma mask_cell (g : G) (x y : list Q) (i j : nat) :
  (i < List.length y)%nat ->
  (j < List.length x)%nat ->
  nth j
      (nth i
           (reshape (shape (fst (meshgrid x y)))
                    (map (contains g)
                         (column_stack (ravel (fst (meshgrid x y)))
                                       (ravel (snd (meshgrid x y))))))
           [])
      false
  = contains g (nth j x 0%Q, nth i y 0%Q).
Proof.
  intros Hi Hj. rewrite points_meshgrid.
  assert (Hshape : shape (fst (meshgrid x y))
                   = (List.length y, List.length x)).
  { unfold shape, meshgrid. simpl. rewrite length_map.
    destruct y; simpl in *; [lia | reflexivity]. }
  rewrite Hshape. unfold reshape. simpl fst. simpl snd.
  rewrite (nth_map_lt _ _ _ 0%nat) by (rewrite length_seq; exact Hi).
  rewrite seq_nth by exact Hi. simpl Nat.add.
  rewrite flat_map_concat_map, concat_map, map_map,
    <- flat_map_concat_map.
  rewrite (row_of_flat
             (fun b => map (contains g) (map (fun a => (a, b)) x))
             (n := List.length x) y 0%Q)
    by (first [ intros b; rewrite !length_map; reflexivity | exact Hi ]).
  rewrite map_map.
  apply (nth_map_lt (fun a => contains g (a, nth i y 0%Q))). exact Hj.
Qed.

(** [mean_polygon], once the union and the variable are there, is the
    mean over lat and lon of the variable with the cells outside the
    union missing. *)
Lemma mean_polygon_inside (ds : Dataset) (name : string)
      (shapefile : GeoDataFrame G) (col : list (option G)) (g : G)
      (var : variable) :
  geometry shapefile = Ok col ->
  union_all (present col) = Ok g ->
  getvar ds name = Ok var ->
  mean_polygon ds name shapefile = Ok (mean_lat_lon ds (inside ds g var)).
Proof.
  intros Hcol Hg Hvar. unfold mean_polygon. rewrite Hcol. simpl.
  rewrite Hg. simpl. rewrite Hvar. simpl. f_equal.
  unfold mean_lat_lon. apply map_ext. intros t. f_equal.
  unfold slice. rewrite !flat_map_concat_map. f_equal.
  apply map_ext_in. intros i Hi. apply map_ext_in. intros j Hj.
  apply in_seq in Hi. apply in_seq in Hj.
  unfold where_, inside.
  rewrite (mask_cell g (lon ds) (lat ds)) by lia. reflexivity.
Qed.

(** ** Means of masked slices *)

Lemma mean_lat_lon_ext (ds : Dataset) (v w : variable) :
  (forall t i j,
      (i < List.length (lat ds))%nat -> (j < List.length (lon ds))%nat ->
      v t i j = w t i j) ->
  mean_lat_lon ds v = mean_lat_lon ds w.
Proof.
  intros H. unfold mean_lat_lon. apply map_ext. intros t. f_equal.
  unfold slice. rewrite !flat_map_concat_map. f_equal.
  apply map_ext_in. intros i Hi. apply map_ext_in. intros j Hj.
  apply in_seq in Hi. apply in_seq in Hj. apply H; lia.
Qed.

Lemma nanmean_all_missing (cells : list value) :
  Forall (fun c => c = NaN) cells -> nanmean cells = NaN.
Proof.
  intros H. unfold nanmean.
  assert (E : valid cells = []).
  { induction H as [|c cells Hc _ IH]; simpl; [reflexivity|].
    rewrite Hc, IH. reflexivity. }
  rewrite E. reflexivity.
Qed.

Lemma mean_lat_lon_missing (ds : Dataset) :
  mean_lat_lon ds (fun _ _ _ => NaN)
  = repeat NaN (List.length (time ds)).
Proof.
  unfold mean_lat_lon.
  rewrite (map_ext _ (fun _ => NaN)).
  - generalize 0%nat. induction (List.length (time ds)) as [|n IH];
      intros s; simpl; [reflexivity | rewrite IH; reflexivity].
  - intros t. apply nanmean_all_missing. unfold slice.
    apply Forall_forall. intros c Hc.
    apply in_flat_map in Hc as (i & _ & Hc).
    apply in_map_iff in Hc as (j & Hc & _). auto.
Qed.

Lemma valid_flat_map (A : Type) (f : A -> list value) (l : list A) :
  valid (flat_map f l) = flat_map (fun a => valid (f a)) l.
Proof.
  induction l as [|a l IH]; simpl; [reflexivity|].
  unfold valid in *. rewrite flat_map_app, IH. reflexivity.
Qed.


(** ** The claims on [mean_polygon] *)

(** C5.  When the union of the shapes contains no point of the grid (no
    pair of a longitude and a latitude of the axes), [mean_polygon]
    returns, and its result is missing at every time step: it is not an
    error and holds no zero. *)
Theorem mean_polygon_outside_is_missing (ds : Dataset) (name : string)
        (shapefile : GeoDataFrame G) (col : list (option G)) (g : G)
        (var : variable) :
  geometry shapefile = Ok col ->
  union_all (present col) = Ok g ->
  getvar ds name = Ok var ->
  (forall a b, In a (lon ds) -> In b (lat ds) -> contains g (a, b) = false) ->
  mean_polygon ds name shapefile = Ok (repeat NaN (List.length (time ds))).
Proof.
  intros Hcol Hg Hvar Hout.
  rewrite (mean_polygon_inside ds name shapefile Hcol Hg Hvar).
  rewrite <- mean_lat_lon_missing. f_equal.
  apply mean_lat_lon_ext. intros t i j Hi Hj. unfold inside.
  rewrite Hout; [reflexivity | apply nth_In; exact Hj
                 | apply nth_In; exact Hi].
Qed.

(** C8.  When the union of the shapes contains every point of the grid,
    [mean_polygon] of a variable is the mean of the variable over lat
    and lon without any mask, at every time step. *)
Theorem mean_polygon_whole_domain (ds : Dataset) (name : string)
        (shapefile : GeoDataFrame G) (col : list (option G)) (g : G)
        (var : variable) :
  geometry shapefile = Ok col ->
  union_all (present col) = Ok g ->
  getvar ds name = Ok var ->
  (forall a b, In a (lon ds) -> In b (lat ds) -> contains g (a, b) = true) ->
  mean_polygon ds name shapefile = Ok (mean_lat_lon ds var).
Proof.
  intros Hcol Hg Hvar Hin.
  rewrite (mean_polygon_inside ds name shapefile Hcol Hg Hvar).
  f_equal. apply mean_lat_lon_ext. intros t i j Hi Hj. unfold inside.
  rewrite Hin; [reflexivity | apply nth_In; exact Hj
                | apply nth_In; exact Hi].
Qed.

(** C7, as the code has it.  An empty shape collection, or one whose
    rows hold no geometry, is no error: the union of no shape is the
    empty collection, no point of the grid is inside it, and the result
    for a variable of the dataset is missing at every time step.
    [mean_polygon] raises when the frame has no geometry column and when
    the union of the shapes raises. *)
Theorem mean_polygon_without_shapes (ds : Dataset) (name : string)
        (shapefile : GeoDataFrame G) :
  (forall col var,
      geometry shapefile = Ok col ->
      present col = [] ->
      getvar ds name = Ok var ->
      mean_polygon ds name shapefile
      = Ok (repeat NaN (List.length (time ds)))) /\
  (forall e,
      geometry shapefile = Raise e ->
      mean_polygon ds name shapefile = Raise e) /\
  (forall col e,
      geometry shapefile = Ok col ->
      union_all (present col) = Raise e ->
      mean_polygon ds name shapefile = Raise e).
Proof.
  split; [|split].
  - intros col var Hcol Hnone Hvar.
    assert (Hg : union_all (present col) = Ok empty_collection)
      by (rewrite Hnone; apply union_all_nil).
    rewrite (mean_polygon_inside ds name shapefile Hcol Hg Hvar).
    rewrite <- mean_lat_lon_missing. f_equal.
    apply mean_lat_lon_ext. intros t i j _ _. unfold inside.
    rewrite contains_empty. reflexivity.
  - intros e He. unfold mean_polygon. rewrite He. reflexivity.
  - intros col e Hcol He. unfold mean_polygon. rewrite Hcol. simpl.
    rewrite He. reflexivity.
Qed.

End Mask.

(** ** The sample dataset *)

(** A square far from the grid. *)
Lemma mean_polygon_outside_is_missing_witness :
  mean_polygon sample "T" (shapes [[square (100 # 1) (140 # 1)]])
  = Ok (repeat NaN (List.length (time sample))).
Proof.
  apply (mean_polygon_outside_is_missing sample "T"
           (shapes [[square (100 # 1) (140 # 1)]])
           (col := [Some [square (100 # 1) (140 # 1)]])
           (g := [square (100 # 1) (140 # 1)])
           (var := temperature)); try reflexivity.
  intros a b Ha Hb. simpl in Ha, Hb.
  destruct Ha as [<-|[<-|[<-|[]]]]; destruct Hb as [<-|[<-|[<-|[]]]];
    vm_compute; reflexivity.
Defined.

(** A square around the whole grid. *)
Lemma mean_polygon_whole_domain_witness :
  mean_polygon sample "T" (shapes [[square (0 # 1) (40 # 1)]])
  = Ok (mean_lat_lon sample temperature).
Proof.
  apply (mean_polygon_whole_domain sample "T"
           (shapes [[square (0 # 1) (40 # 1)]])
           (col := [Some [square (0 # 1) (40 # 1)]])
           (g := [square (0 # 1) (40 # 1)])
           (var := temperature)); try reflexivity.
  intros a b Ha Hb. simpl in Ha, Hb.
  destruct Ha as [<-|[<-|[<-|[]]]]; destruct Hb as [<-|[<-|[<-|[]]]];
    vm_compute; reflexivity.
Defined.

(** C7 fails as stated.  With an empty geometry column [mean_polygon]
    returns, and its result is missing at both time steps. *)
Lemma mean_polygon_empty_collection_returns :
  mean_polygon sample "T" (shapes (@nil region)) = Ok [NaN; NaN].
Proof. vm_compute. reflexivity. Qed.

(** ** Nearest point *)

(** C4.  On a dataset whose lat axis and lon axis are both 10, 20, 30,
    [grid_data] at the target (lat 18, lon 22) returns the data of the
    cell at lat 20 and lon 20, that is the cells at position 1 on each
    axis, for every variable and time.  Each axis is matched on its own:
    the latitude is 20 whatever the lon axis and the lon target are, and
    the longitude is 20 whatever the lat axis and the lat target are. *)
Theorem grid_data_nearest_cell (times : list Z)
        (vars : list (string * variable)) :
  grid_data {| lat := axis_10_20_30; lon := axis_10_20_30;
               time := times; data_vars := vars |}
            (18 # 1) (22 # 1)
  = Ok {| cell_lat := 20 # 1;
          cell_lon := 20 # 1;
          cell_vars :=
            map (fun p => (fst p,
                           map (fun t => snd p t 1%nat 1%nat)
                               (seq 0 (List.length times))))
                vars |}
  /\ (forall lons b c,
        grid_data {| lat := axis_10_20_30; lon := lons;
                     time := times; data_vars := vars |}
                  (18 # 1) b = Ok c ->
        cell_lat c = (20 # 1)%Q)
  /\ (forall lats a c,
        grid_data {| lat := lats; lon := axis_10_20_30;
                     time := times; data_vars := vars |}
                  a (22 # 1) = Ok c ->
        cell_lon c = (20 # 1)%Q).
Proof.
  assert (H18 : sel_coord axis_10_20_30 (18 # 1) = Ok (20 # 1)%Q)
    by (vm_compute; reflexivity).
  assert (H22 : sel_coord axis_10_20_30 (22 # 1) = Ok (20 # 1)%Q)
    by (vm_compute; reflexivity).
  assert (H20 : nearest axis_10_20_30 (20 # 1) = Ok 1%nat)
    by (vm_compute; reflexivity).
  split; [|split].
  - unfold grid_data, sel. simpl lat. simpl lon.
    rewrite H18, H22. simpl bind. rewrite ?H20. reflexivity.
  - intros lons b c H. unfold grid_data, sel in H. simpl lat in H.
    simpl lon in H. rewrite H18 in H. simpl bind in H.
    destruct (sel_coord lons b) as [lon_idx|]; simpl bind in H;
      [|discriminate].
    rewrite ?H20 in H. simpl bind in H.
    destruct (nearest lons lon_idx) as [j|]; simpl bind in H;
      [|discriminate].
    injection H as <-. reflexivity.
  - intros lats a c H. unfold grid_data, sel in H. simpl lat in H.
    simpl lon in H.
    destruct (sel_coord lats a) as [lat_idx|]; simpl bind in H;
      [|discriminate].
    rewrite ?H22 in H. simpl bind in H.
    destruct (nearest lats lat_idx) as [i|]; simpl bind in H;
      [|discriminate].
    rewrite ?H20 in H. simpl bind in H.
    injection H as <-. reflexivity.
Qed.

(** * More on the gridded helpers *)

(** ** The order of an axis *)

Lemma ord_refl (d : bool) (x : Q) : ord d x x = true.
Proof. unfold ord. destruct d; apply Qle_bool_iff; apply Qle_refl. Qed.

Lemma ord_trans (d : bool) (x y z : Q) :
  ord d x y = true -> ord d y z = true -> ord d x z = true.
Proof.
  unfold ord. destruct d; rewrite !Qle_bool_iff; intros; lra.
Qed.

Lemma ord_total (d : bool) (x y : Q) :
  ord d x y = true \/ ord d y x = true.
Proof.
  unfold ord. destruct d; rewrite !Qle_bool_iff;
    destruct (Qlt_le_dec x y); auto; left + right; lra.
Qed.

Lemma ord_antisym (d : bool) (x y : Q) :
  ord d x y = true -> ord d y x = true -> x == y.
Proof.
  unfold ord. destruct d; rewrite !Qle_bool_iff; intros; lra.
Qed.

(** A label between another label and the target is at least as near. *)
Lemma nearer_before (d : bool) (x y t : Q) :
  ord d x y = true -> ord d y t = true ->
  Qabs (t - y) <= Qabs (t - x).
Proof.
  unfold ord. destruct d; rewrite !Qle_bool_iff; intros Hxy Hyt.
  - rewrite !Qabs_pos by lra. lra.
  - rewrite !Qabs_neg by lra. lra.
Qed.

Lemma nearer_after (d : bool) (x y t : Q) :
  ord d t y = true -> ord d y x = true ->
  Qabs (t - y) <= Qabs (t - x).
Proof.
  unfold ord. destruct d; rewrite !Qle_bool_iff; intros Hty Hyx.
  - rewrite !Qabs_neg by lra. lra.
  - rewrite !Qabs_pos by lra. lra.
Qed.

(** ** Positions on an axis *)

Lemma last_position_None (p : Q -> bool) (axis : list Q) :
  last_position p axis = None ->
  forall k, (k < List.length axis)%nat -> p (nth k axis 0) = false.
Proof.
  induction axis as [|x axis IH]; simpl; intros H k Hk; [lia|].
  destruct (last_position p axis); [discriminate|].
  destruct (p x) eqn:Ex; [discriminate|].
  destruct k as [|k]; [exact Ex | apply IH; [reflexivity | lia]].
Qed.

Lemma last_position_Some (p : Q -> bool) (axis : list Q) (l : nat) :
  last_position p axis = Some l ->
  (l < List.length axis)%nat /\
  p (nth l axis 0) = true /\
  forall k, (l < k)%nat -> (k < List.length axis)%nat ->
            p (nth k axis 0) = false.
Proof.
  revert l. induction axis as [|x axis IH]; simpl; intros l H;
    [discriminate|].
  destruct (last_position p axis) as [m|] eqn:E.
  - injection H as <-. destruct (IH m eq_refl) as (Hm & Hp & Hlast).
    split; [lia|]. split; [exact Hp|].
    intros [|k] Hk Hlen; [lia|]. apply Hlast; lia.
  - destruct (p x) eqn:Ex; [|discriminate]. injection H as <-.
    split; [lia|]. split; [exact Ex|].
    intros [|k] Hk Hlen; [lia|].
    apply (last_position_None _ _ E). lia.
Qed.

Lemma first_position_None (p : Q -> bool) (axis : list Q) :
  first_position p axis = None ->
  forall k, (k < List.length axis)%nat -> p (nth k axis 0) = false.
Proof.
  induction axis as [|x axis IH]; simpl; intros H k Hk; [lia|].
  destruct (p x) eqn:Ex; [discriminate|].
  destruct (first_position p axis); [discriminate|].
  destruct k as [|k]; [exact Ex | apply IH; [reflexivity | lia]].
Qed.

Lemma first_position_Some (p : Q -> bool) (axis : list Q) (r : nat) :
  first_position p axis = Some r ->
  (r < List.length axis)%nat /\
  p (nth r axis 0) = true /\
  forall k, (k < r)%nat -> p (nth k axis 0) = false.
Proof.
  revert r. induction axis as [|x axis IH]; simpl; intros r H;
    [discriminate|].
  destruct (p x) eqn:Ex.
  - injection H as <-. split; [lia|]. split; [exact Ex|]. intros k Hk. lia.
  - destruct (first_position p axis) as [m|] eqn:E; [|discriminate].
    injection H as <-. destruct (IH m eq_refl) as (Hm & Hp & Hfirst).
    split; [lia|]. split; [exact Hp|].
    intros [|k] Hk; [exact Ex | apply Hfirst; lia].
Qed.

Lemma last_position_intro (p : Q -> bool) (axis : list Q) (l : nat) :
  (l < List.length axis)%nat ->
  p (nth l axis 0) = true ->
  (forall k, (l < k)%nat -> (k < List.length axis)%nat ->
             p (nth k axis 0) = false) ->
  last_position p axis = Some l.
Proof.
  intros Hl Hp Hlast. destruct (last_position p axis) as [m|] eqn:E.
  - destruct (last_position_Some _ _ E) as (Hm & Hpm & Hlastm).
    destruct (Nat.lt_trichotomy m l) as [Hlt|[->|Hgt]].
    + rewrite (Hlastm l Hlt Hl) in Hp. discriminate.
    + reflexivity.
    + rewrite (Hlast m Hgt Hm) in Hpm. discriminate.
  - rewrite (last_position_None _ _ E Hl) in Hp. discriminate.
Qed.

Lemma first_position_intro (p : Q -> bool) (axis : list Q) (r : nat) :
  (r < List.length axis)%nat ->
  p (nth r axis 0) = true ->
  (forall k, (k < r)%nat -> p (nth k axis 0) = false) ->
  first_position p axis = Some r.
Proof.
  intros Hr Hp Hfirst. destruct (first_position p axis) as [m|] eqn:E.
  - destruct (first_position_Some _ _ E) as (Hm & Hpm & Hfirstm).
    destruct (Nat.lt_trichotomy m r) as [Hlt|[->|Hgt]].
    + rewrite (Hfirst m Hlt) in Hpm. discriminate.
    + reflexivity.
    + rewrite (Hfirstm r Hgt) in Hp. discriminate.
  - rewrite (first_position_None _ _ E Hr) in Hp. discriminate.
Qed.

(** ** Monotonic axes with distinct labels *)

Lemma sorted_by_tail (le : Q -> Q -> bool) (x : Q) (axis : list Q) :
  sorted_by le (x :: axis) = true -> sorted_by le axis = true.
Proof.
  destruct axis as [|y axis]; simpl; [reflexivity|].
  intros H. apply andb_true_iff in H. tauto.
Qed.

Lemma sorted_by_nth (d : bool) (axis : list Q) (i j : nat) :
  sorted_by (ord d) axis = true ->
  (i <= j)%nat -> (j < List.length axis)%nat ->
  ord d (nth i axis 0) (nth j axis 0) = true.
Proof.
  revert i j. induction axis as [|x axis IH]; intros i j Hs Hij Hj;
    simpl in Hj; [lia|].
  destruct i as [|i], j as [|j]; try lia.
  - apply ord_refl.
  - simpl nth at 1.
    destruct axis as [|y axis]; simpl in Hj; [lia|].
    assert (Hxy : ord d x y = true)
      by (simpl in Hs; apply andb_true_iff in Hs; tauto).
    apply (ord_trans _ _ _ _ Hxy).
    apply (IH 0%nat j (sorted_by_tail _ _ _ Hs)); simpl; lia.
  - simpl. apply IH; [exact (sorted_by_tail _ _ _ Hs) | lia | lia].
Qed.

Lemma is_unique_nth (axis : list Q) (i j : nat) :
  is_unique axis = true ->
  (i < j)%nat -> (j < List.length axis)%nat ->
  ~ nth i axis 0 == nth j axis 0.
Proof.
  revert i j. induction axis as [|x axis IH]; intros i j Hu Hij Hj;
    simpl in Hj; [lia|].
  simpl in Hu. apply andb_true_iff in Hu as [Hx Hu].
  destruct j as [|j]; [lia|]. destruct i as [|i]; simpl.
  - intros E. apply negb_true_iff in Hx.
    assert (Hex : existsb (Qeq_bool x) axis = true).
    { apply existsb_exists. exists (nth j axis 0). split.
      - apply nth_In. lia.
      - apply Qeq_bool_iff. exact E. }
    congruence.
  - apply IH; [exact Hu | lia | lia].
Qed.

(** ** The nearest label *)

Lemma nearest_checks (axis : list Q) (t : Q) (k : nat) :
  nearest axis t = Ok k ->
  is_unique axis = true /\
  sorted_by (ord (is_monotonic_increasing axis)) axis = true.
Proof.
  unfold nearest. intros H.
  destruct (is_unique axis); simpl in H; [|discriminate].
  split; [reflexivity|].
  destruct (is_monotonic_increasing axis) eqn:Ei; simpl in H.
  - exact Ei.
  - destruct (is_monotonic_decreasing axis) eqn:Ed; simpl in H;
      [exact Ed | discriminate].
Qed.

Lemma nearest_checked (axis : list Q) (t : Q) :
  is_unique axis = true ->
  sorted_by (ord (is_monotonic_increasing axis)) axis = true ->
  nearest axis t
  = match last_position (fun x => ord (is_monotonic_increasing axis) x t)
                        axis,
          first_position (fun x => ord (is_monotonic_increasing axis) t x)
                         axis with
    | Some l, Some r =>
        if (if is_monotonic_increasing axis
            then Qlt_bool (distance axis t l) (distance axis t r)
            else Qle_bool (distance axis t l) (distance axis t r))
        then Ok l else Ok r
    | Some l, None => Ok l
    | None, Some r => Ok r
    | None, None => Raise KeyError
    end.
Proof.
  intros Hu Hs. unfold nearest. rewrite Hu. simpl.
  destruct (is_monotonic_increasing axis) eqn:Ei; simpl.
  - reflexivity.
  - change (is_monotonic_decreasing axis = true) in Hs. rewrite Hs.
    reflexivity.
Qed.

(** The label [nearest] picks is a label of the axis, and no label is
    nearer to the target. *)
Lemma nearest_optimal (axis : list Q) (t : Q) (m : nat) :
  nearest axis t = Ok m ->
  (m < List.length axis)%nat /\
  forall k, (k < List.length axis)%nat ->
            Qabs (t - nth m axis 0) <= Qabs (t - nth k axis 0).
Proof.
  intros H. destruct (@nearest_checks _ _ _ H) as [Hu Hs].
  rewrite (@nearest_checked axis t Hu Hs) in H.
  set (d := is_monotonic_increasing axis) in *.
  assert (Hbefore : forall l k,
             last_position (fun x => ord d x t) axis = Some l ->
             (k < List.length axis)%nat ->
             ord d (nth k axis 0) t = true ->
             Qabs (t - nth l axis 0) <= Qabs (t - nth k axis 0)).
  { intros l k El Hk Hp.
    destruct (last_position_Some _ _ El) as (Hl & Hpl & Hlast).
    assert (Hkl : (k <= l)%nat).
    { destruct (Nat.le_gt_cases k l) as [Hle|Hgt]; [exact Hle|].
      rewrite (Hlast k Hgt Hk) in Hp. discriminate. }
    apply (nearer_before d); [|exact Hpl].
    apply sorted_by_nth; assumption. }
  assert (Hafter : forall r k,
             first_position (fun x => ord d t x) axis = Some r ->
             (k < List.length axis)%nat ->
             ord d t (nth k axis 0) = true ->
             Qabs (t - nth r axis 0) <= Qabs (t - nth k axis 0)).
  { intros r k Er Hk Hp.
    destruct (first_position_Some _ _ Er) as (Hr & Hpr & Hfirst).
    assert (Hrk : (r <= k)%nat).
    { destruct (Nat.le_gt_cases r k) as [Hle|Hgt]; [exact Hle|].
      rewrite (Hfirst k Hgt) in Hp. discriminate. }
    apply (nearer_after d); [exact Hpr|].
    apply sorted_by_nth; assumption. }
  destruct (last_position _ axis) as [l|] eqn:El;
    destruct (first_position _ axis) as [r|] eqn:Er.
  - destruct (last_position_Some _ _ El) as (Hl & _).
    destruct (first_position_Some _ _ Er) as (Hr & _).
    assert (Hm : Qabs (t - nth m axis 0) <= Qabs (t - nth l axis 0) /\
                 Qabs (t - nth m axis 0) <= Qabs (t - nth r axis 0) /\
                 (m < List.length axis)%nat).
    { unfold distance in H. destruct d.
      - destruct (Qlt_bool _ _) eqn:E; injection H as <-.
        + apply AirFacts.Qlt_bool_iff in E. repeat split; [lra | lra | exact Hl].
        + assert (~ Qabs (t - nth l axis 0) < Qabs (t - nth r axis 0))
            by (intros C; apply AirFacts.Qlt_bool_iff in C; congruence).
          repeat split; [lra | lra | exact Hr].
      - destruct (Qle_bool _ _) eqn:E; injection H as <-.
        + apply Qle_bool_iff in E. repeat split; [lra | lra | exact Hl].
        + assert (~ Qabs (t - nth l axis 0) <= Qabs (t - nth r axis 0))
            by (intros C; apply Qle_bool_iff in C; congruence).
          repeat split; [lra | lra | exact Hr]. }
    destruct Hm as (Hml & Hmr & Hlen). split; [exact Hlen|].
    intros k Hk. destruct (ord_total d (nth k axis 0) t) as [Hp|Hp].
    + pose proof (Hbefore l k eq_refl Hk Hp). lra.
    + pose proof (Hafter r k eq_refl Hk Hp). lra.
  - injection H as <-.
    destruct (last_position_Some _ _ El) as (Hl & _). split; [exact Hl|].
    intros k Hk. destruct (ord_total d (nth k axis 0) t) as [Hp|Hp].
    + exact (Hbefore l k eq_refl Hk Hp).
    + rewrite (first_position_None _ _ Er Hk) in Hp. discriminate.
  - injection H as <-.
    destruct (first_position_Some _ _ Er) as (Hr & _). split; [exact Hr|].
    intros k Hk. destruct (ord_total d (nth k axis 0) t) as [Hp|Hp].
    + rewrite (last_position_None _ _ El Hk) in Hp. discriminate.
    + exact (Hafter r k eq_refl Hk Hp).
  - discriminate.
Qed.

(** On a label of the axis, [nearest] gives the position of the label. *)
Lemma nearest_exact (axis : list Q) (k : nat) :
  is_unique axis = true ->
  sorted_by (ord (is_monotonic_increasing axis)) axis = true ->
  (k < List.length axis)%nat ->
  nearest axis (nth k axis 0) = Ok k.
Proof.
  intros Hu Hs Hk. rewrite (@nearest_checked axis _ Hu Hs).
  set (d := is_monotonic_increasing axis) in *.
  set (t := nth k axis 0).
  assert (El : last_position (fun x => ord d x t) axis = Some k).
  { apply last_position_intro; [exact Hk | apply ord_refl|].
    intros j Hkj Hj. destruct (ord d (nth j axis 0) t) eqn:E; [|reflexivity].
    exfalso. apply (is_unique_nth axis Hu Hkj Hj).
    apply (ord_antisym d); [|exact E].
    apply sorted_by_nth; [exact Hs | lia | exact Hj]. }
  assert (Er : first_position (fun x => ord d t x) axis = Some k).
  { apply first_position_intro; [exact Hk | apply ord_refl|].
    intros j Hjk. destruct (ord d t (nth j axis 0)) eqn:E; [|reflexivity].
    exfalso. apply (is_unique_nth axis Hu Hjk Hk).
    apply (ord_antisym d); [|exact E].
    apply sorted_by_nth; [exact Hs | lia | exact Hk]. }
  rewrite El, Er. destruct (if d then _ else _); reflexivity.
Qed.

(** [nearest] returns on the usable axes, and only on them. *)
Lemma nearest_returns (axis : list Q) (t : Q) :
  usable_axis axis = true <-> exists k, nearest axis t = Ok k.
Proof.
  unfold usable_axis. split.
  - intros H. apply andb_true_iff in H as [H Hm].
    apply andb_true_iff in H as [Hne Hu].
    assert (Hs : sorted_by (ord (is_monotonic_increasing axis)) axis = true).
    { destruct (is_monotonic_increasing axis) eqn:Ei; [exact Ei|].
      simpl in Hm. exact Hm. }
    rewrite (@nearest_checked axis t Hu Hs).
    destruct (last_position _ axis) as [l|] eqn:El;
      destruct (first_position _ axis) as [r|] eqn:Er.
    + destruct (if is_monotonic_increasing axis then _ else _); eauto.
    + eauto.
    + eauto.
    + exfalso. destruct axis as [|x axis]; [discriminate|].
      assert (H0 : (0 < List.length (x :: axis))%nat) by (simpl; lia).
      pose proof (last_position_None _ _ El H0) as Hb.
      pose proof (first_position_None _ _ Er H0) as Ha.
      simpl in Hb, Ha.
      destruct (ord_total (is_monotonic_increasing (x :: axis)) x t);
        congruence.
  - intros (k & H). destruct (@nearest_checks _ _ _ H) as [Hu Hs].
    destruct (@nearest_optimal _ _ _ H) as [Hk _].
    rewrite Hu. apply andb_true_iff. split.
    + apply andb_true_iff. split; [|reflexivity].
      destruct axis; [simpl in Hk; lia | reflexivity].
    + destruct (is_monotonic_increasing axis) eqn:Ei; [reflexivity|].
      exact Hs.
Qed.

(** On a tie the larger label wins, on an increasing and on a decreasing
    axis alike. *)
Lemma nearest_tie (axis : list Q) (t : Q) (m k : nat) :
  nearest axis t = Ok m ->
  (k < List.length axis)%nat ->
  Qabs (t - nth k axis 0) == Qabs (t - nth m axis 0) ->
  nth k axis 0 <= nth m axis 0.
Proof.
  intros H Hk Htie. destruct (@nearest_checks _ _ _ H) as [Hu Hs].
  rewrite (@nearest_checked axis t Hu Hs) in H.
  set (d := is_monotonic_increasing axis) in *.
  assert (Hbefore : forall l,
             last_position (fun x => ord d x t) axis = Some l ->
             ord d (nth k axis 0) t = true ->
             ord d (nth k axis 0) (nth l axis 0) = true /\
             ord d (nth l axis 0) t = true).
  { intros l El Hp.
    destruct (last_position_Some _ _ El) as (Hl & Hpl & Hlast).
    split; [|exact Hpl]. apply sorted_by_nth; [exact Hs| |exact Hl].
    destruct (Nat.le_gt_cases k l) as [Hle|Hgt]; [exact Hle|].
    rewrite (Hlast k Hgt Hk) in Hp. discriminate. }
  assert (Hafter : forall r,
             first_position (fun x => ord d t x) axis = Some r ->
             ord d t (nth k axis 0) = true ->
             ord d t (nth r axis 0) = true /\
             ord d (nth r axis 0) (nth k axis 0) = true).
  { intros r Er Hp.
    destruct (first_position_Some _ _ Er) as (Hr & Hpr & Hfirst).
    split; [exact Hpr|]. apply sorted_by_nth; [exact Hs| |exact Hk].
    destruct (Nat.le_gt_cases r k) as [Hle|Hgt]; [exact Hle|].
    rewrite (Hfirst k Hgt) in Hp. discriminate. }
  pose proof (Qabs_nonneg (t - nth k axis 0)) as Nk.
  pose proof (Qle_Qabs (t - nth k axis 0)) as Uk.
  pose proof (Qle_Qabs (- (t - nth k axis 0))) as Vk.
  rewrite Qabs_opp in Vk.
  destruct (last_position _ axis) as [l|] eqn:El;
    destruct (first_position _ axis) as [r|] eqn:Er.
  - unfold distance in H.
    destruct (ord_total d (nth k axis 0) t) as [Hp|Hp].
    + destruct (Hbefore l eq_refl Hp) as [Hkl Hlt].
      destruct (first_position_Some _ _ Er) as (_ & Hpr & _).
      unfold ord in *. destruct d.
      * apply Qle_bool_iff in Hp, Hkl, Hlt, Hpr.
        destruct (Qlt_bool _ _); injection H as <-; lra.
      * apply Qle_bool_iff in Hp, Hkl, Hlt, Hpr.
        destruct (Qle_bool _ _) eqn:E; injection H as <-.
        -- rewrite (Qabs_neg (t - nth k axis 0)) in Htie by lra.
           rewrite (Qabs_neg (t - nth l axis 0)) in Htie by lra. lra.
        -- exfalso.
           assert (C : ~ Qabs (t - nth l axis 0) <= Qabs (t - nth r axis 0))
             by (intros C; apply Qle_bool_iff in C; congruence).
           apply C. rewrite <- Htie.
           rewrite (Qabs_neg (t - nth k axis 0)) by lra.
           rewrite (Qabs_neg (t - nth l axis 0)) by lra. lra.
    + destruct (Hafter r eq_refl Hp) as [Htr Hrk].
      destruct (last_position_Some _ _ El) as (_ & Hpl & _).
      unfold ord in *. destruct d.
      * apply Qle_bool_iff in Hp, Htr, Hrk, Hpl.
        destruct (Qlt_bool _ _) eqn:E; injection H as <-.
        -- exfalso. apply AirFacts.Qlt_bool_iff in E.
           rewrite <- Htie in E.
           rewrite (Qabs_neg (t - nth k axis 0)) in E by lra.
           rewrite (Qabs_neg (t - nth r axis 0)) in E by lra. lra.
        -- rewrite (Qabs_neg (t - nth k axis 0)) in Htie by lra.
           rewrite (Qabs_neg (t - nth r axis 0)) in Htie by lra. lra.
      * apply Qle_bool_iff in Hp, Htr, Hrk, Hpl.
        destruct (Qle_bool _ _); injection H as <-; lra.
  - injection H as <-.
    destruct (ord_total d (nth k axis 0) t) as [Hp|Hp].
    + destruct (Hbefore l eq_refl Hp) as [Hkl Hlt].
      unfold ord in *. destruct d.
      * apply Qle_bool_iff in Hkl. exact Hkl.
      * apply Qle_bool_iff in Hp, Hkl, Hlt.
        rewrite (Qabs_neg (t - nth k axis 0)) in Htie by lra.
        rewrite (Qabs_neg (t - nth l axis 0)) in Htie by lra. lra.
    + rewrite (first_position_None _ _ Er Hk) in Hp. discriminate.
  - injection H as <-.
    destruct (ord_total d (nth k axis 0) t) as [Hp|Hp].
    + rewrite (last_position_None _ _ El Hk) in Hp. discriminate.
    + destruct (Hafter r eq_refl Hp) as [Htr Hrk].
      unfold ord in *. destruct d.
      * apply Qle_bool_iff in Hp, Htr, Hrk.
        rewrite (Qabs_neg (t - nth k axis 0)) in Htie by lra.
        rewrite (Qabs_neg (t - nth r axis 0)) in Htie by lra. lra.
      * apply Qle_bool_iff in Hrk. exact Hrk.
  - discriminate.
Qed.


(** ** Behaviour of [grid_data] *)

Lemma nearest_again (axis : list Q) (t : Q) (k : nat) :
  nearest axis t = Ok k -> nearest axis (nth k axis 0) = Ok k.
Proof.
  intros H. destruct (@nearest_checks _ _ _ H) as [Hu Hs].
  destruct (@nearest_optimal _ _ _ H) as [Hk _].
  exact (nearest_exact _ Hu Hs Hk).
Qed.

(** The two selections of [grid_data] amount to one. *)
Lemma grid_data_unfold (ds : Dataset) (a b : Q) :
  grid_data ds a b
  = (i <- nearest (lat ds) a ;;
     j <- nearest (lon ds) b ;;
     Ok (cell_at ds i j)).
Proof.
  unfold grid_data, sel_coord, sel.
  destruct (nearest (lat ds) a) as [i|] eqn:Ea; simpl; [|reflexivity].
  destruct (nearest (lon ds) b) as [j|] eqn:Eb; simpl; [|reflexivity].
  rewrite (nearest_again _ _ Ea). simpl.
  rewrite (nearest_again _ _ Eb). reflexivity.
Qed.

Lemma grid_data_positions (ds : Dataset) (a b : Q) (c : Cell) :
  grid_data ds a b = Ok c ->
  exists i j,
    nearest (lat ds) a = Ok i /\ nearest (lon ds) b = Ok j /\
    c = cell_at ds i j.
Proof.
  rewrite grid_data_unfold. intros H.
  destruct (nearest (lat ds) a) as [i|]; simpl in H; [|discriminate].
  destruct (nearest (lon ds) b) as [j|]; simpl in H; [|discriminate].
  injection H as <-. exists i, j. auto.
Qed.

Lemma In_nth_lt (axis : list Q) (x : Q) :
  In x axis -> exists k, (k < List.length axis)%nat /\ nth k axis 0 = x.
Proof. intros H. exact (In_nth axis x 0 H). Qed.

(** X13.  [grid_data] is one nearest selection: selecting the nearest
    label of each axis first and then the dataset at these labels gives
    what [ds.sel(lat=lat_target, lon=lon_target, method='nearest')] gives,
    exceptions included. *)
Theorem grid_data_is_one_selection (ds : Dataset) (a b : Q) :
  grid_data ds a b = sel ds a b.
Proof.
  rewrite grid_data_unfold. reflexivity.
Qed.


(** X15.  On a target that is a label of each axis, [grid_data] returns
    the cell of these labels: the data at their positions. *)
Theorem grid_data_on_grid_point (ds : Dataset) (i j : nat) :
  usable_axis (lat ds) = true ->
  usable_axis (lon ds) = true ->
  (i < List.length (lat ds))%nat ->
  (j < List.length (lon ds))%nat ->
  grid_data ds (nth i (lat ds) 0) (nth j (lon ds) 0) = Ok (cell_at ds i j).
Proof.
  intros Hlat Hlon Hi Hj. rewrite grid_data_unfold.
  apply (nearest_returns _ 0) in Hlat as (k & Hk).
  apply (nearest_returns _ 0) in Hlon as (k' & Hk').
  destruct (@nearest_checks _ _ _ Hk) as [Hu Hs].
  destruct (@nearest_checks _ _ _ Hk') as [Hu' Hs'].
  rewrite (nearest_exact _ Hu Hs Hi). simpl.
  rewrite (nearest_exact _ Hu' Hs' Hj). reflexivity.
Qed.


(** X17.  Ties go to the larger label: a latitude as near to the target
    as the one returned is not larger than it, and the same for the
    longitude. *)
Theorem grid_data_tie_takes_larger (ds : Dataset) (a b : Q) (c : Cell) :
  grid_data ds a b = Ok c ->
  (forall x, In x (lat ds) ->
             Qabs (a - x) == Qabs (a - cell_lat c) -> x <= cell_lat c) /\
  (forall y, In y (lon ds) ->
             Qabs (b - y) == Qabs (b - cell_lon c) -> y <= cell_lon c).
Proof.
  intros H. apply grid_data_positions in H as (i & j & Hi & Hj & ->).
  simpl. split.
  - intros x Hx. apply In_nth_lt in Hx as (k & Hk & <-).
    exact (nearest_tie _ Hi Hk).
  - intros y Hy. apply In_nth_lt in Hy as (k & Hk & <-).
    exact (nearest_tie _ Hj Hk).
Qed.

Lemma nearest_clamps (axis : list Q) (t : Q) (m : nat) :
  nearest axis t = Ok m ->
  ((forall x, In x axis -> x <= t) ->
   forall x, In x axis -> x <= nth m axis 0) /\
  ((forall x, In x axis -> t <= x) ->
   forall x, In x axis -> nth m axis 0 <= x).
Proof.
  intros H. destruct (@nearest_optimal _ _ _ H) as [Hlen Hbest].
  split; intros Hall x Hx.
  - pose proof (Hall _ (nth_In axis 0 Hlen)) as Hy.
    pose proof (Hall _ Hx) as Hxa.
    apply In_nth_lt in Hx as (k & Hk & <-).
    pose proof (Hbest k Hk) as Hb.
    rewrite !Qabs_pos in Hb by lra. lra.
  - pose proof (Hall _ (nth_In axis 0 Hlen)) as Hy.
    pose proof (Hall _ Hx) as Hxa.
    apply In_nth_lt in Hx as (k & Hk & <-).
    pose proof (Hbest k Hk) as Hb.
    rewrite !Qabs_neg in Hb by lra. lra.
Qed.

(** X18.  A target beyond an end of an axis is clamped to that end: when
    no latitude is above the lat target the cell has the largest latitude,
    when none is below it the cell has the smallest, and the same for the
    longitude. *)
Theorem grid_data_clamps (ds : Dataset) (a b : Q) (c : Cell) :
  grid_data ds a b = Ok c ->
  (((forall x, In x (lat ds) -> x <= a) ->
    forall x, In x (lat ds) -> x <= cell_lat c) /\
   ((forall x, In x (lat ds) -> a <= x) ->
    forall x, In x (lat ds) -> cell_lat c <= x)) /\
  (((forall y, In y (lon ds) -> y <= b) ->
    forall y, In y (lon ds) -> y <= cell_lon c) /\
   ((forall y, In y (lon ds) -> b <= y) ->
    forall y, In y (lon ds) -> cell_lon c <= y)).
Proof.
  intros H. apply grid_data_positions in H as (i & j & Hi & Hj & ->).
  simpl. split; [exact (nearest_clamps _ _ Hi) | exact (nearest_clamps _ _ Hj)].
Qed.

(** ** Behaviour of [mean_polygon] *)

Lemma flat_map_single (A : Type) (f : nat -> list A) (l : list nat)
      (i0 : nat) :
  NoDup l -> In i0 l ->
  (forall i, In i l -> i <> i0 -> f i = []) ->
  flat_map f l = f i0.
Proof.
  intros Hnd. induction Hnd as [|i l Hi Hnd IH]; intros Hin Hf;
    [destruct Hin|].
  simpl. destruct Hin as [->|Hin].
  - assert (E : flat_map f l = []).
    { clear IH. induction l as [|k l IHl]; simpl; [reflexivity|].
      rewrite (Hf k) by (simpl; auto; intros ->; apply Hi; left; reflexivity).
      apply IHl.
      - intros C. apply Hi. right. exact C.
      - inversion Hnd. assumption.
      - intros k' Hk' Hne. apply Hf; [|exact Hne].
        destruct Hk' as [->|Hk']; [left; reflexivity | right; right; exact Hk']. }
    rewrite E. apply app_nil_r.
  - rewrite (Hf i) by (simpl; auto; intros ->; exact (Hi Hin)).
    apply IH; [exact Hin|]. intros k Hk. apply Hf. right. exact Hk.
Qed.

Lemma nanmean_valid (a b : list value) :
  valid a = valid b -> nanmean a = nanmean b.
Proof. unfold nanmean. intros ->. reflexivity. Qed.

Lemma nanmean_single (v : value) : same_value (nanmean [v]) v.
Proof.
  destruct v as [|q]; simpl; [exact I|].
  unfold nanmean. simpl. unfold Qsum. simpl. field.
Qed.

Lemma flat_map_nil (A B : Type) (f : A -> list B) (l : list A) :
  (forall x, In x l -> f x = []) -> flat_map f l = [].
Proof.
  induction l as [|a l IH]; simpl; intros H; [reflexivity|].
  rewrite (H a) by (left; reflexivity). apply IH. intros x Hx.
  apply H. right. exact Hx.
Qed.

Lemma valid_map (A : Type) (h : A -> value) (l : list A) :
  valid (map h l) = flat_map (fun a => valid [h a]) l.
Proof.
  induction l as [|a l IH]; simpl; [reflexivity|].
  unfold valid in *. simpl. rewrite IH, app_nil_r. reflexivity.
Qed.

(** The cells that count in a time step where one cell only can be
    present. *)
Lemma valid_slice_single (ds : Dataset) (w : variable) (t i0 j0 : nat) :
  (i0 < List.length (lat ds))%nat ->
  (j0 < List.length (lon ds))%nat ->
  (forall i j,
      (i < List.length (lat ds))%nat -> (j < List.length (lon ds))%nat ->
      i <> i0 \/ j <> j0 -> w t i j = NaN) ->
  valid (slice ds w t) = valid [w t i0 j0].
Proof.
  intros Hi0 Hj0 Hout. unfold slice. rewrite valid_flat_map.
  rewrite (@flat_map_single _ _ _ i0);
    [ | apply seq_NoDup | apply in_seq; lia | ].
  - rewrite valid_map.
    apply (@flat_map_single _ (fun j => valid [w t i0 j]) _ j0);
      [ apply seq_NoDup | apply in_seq; lia | ].
    intros j Hj Hne. apply in_seq in Hj.
    rewrite Hout by (auto; lia). reflexivity.
  - intros i Hi Hne. apply in_seq in Hi. rewrite valid_map.
    apply flat_map_nil. intros j Hj. apply in_seq in Hj.
    rewrite Hout by (auto; lia). reflexivity.
Qed.

Section MeanPolygonBehaviour.

Context {G : Type} {geo : Geometry G}.

(** X19.  [mean_polygon] returns exactly when the frame has a geometry
    column, the union of its shapes succeeds and the variable is in the
    dataset; the result is then the mean, over lat and lon, of the variable
    with the cells outside the union missing, and it has one entry per
    time step. *)
Theorem mean_polygon_returns_iff (ds : Dataset) (name : string)
        (shapefile : GeoDataFrame G) :
  (forall r,
      mean_polygon ds name shapefile = Ok r <->
      exists col g var,
        geometry shapefile = Ok col /\
        union_all (present col) = Ok g /\
        getvar ds name = Ok var /\
        r = mean_lat_lon ds (inside ds g var)) /\
  (forall r,
      mean_polygon ds name shapefile = Ok r ->
      List.length r = List.length (time ds)).
Proof.
  assert (Hiff : forall r,
             mean_polygon ds name shapefile = Ok r <->
             exists col g var,
               geometry shapefile = Ok col /\
               union_all (present col) = Ok g /\
               getvar ds name = Ok var /\
               r = mean_lat_lon ds (inside ds g var)).
  { intros r. split.
    - intros H.
      destruct (geometry shapefile) as [col|] eqn:Ecol;
        [|unfold mean_polygon in H; rewrite Ecol in H; discriminate].
      destruct (union_all (present col)) as [g|] eqn:Eg;
        [|unfold mean_polygon in H; rewrite Ecol in H; simpl in H;
          rewrite Eg in H; discriminate].
      destruct (getvar ds name) as [var|] eqn:Evar;
        [|unfold mean_polygon in H; rewrite Ecol in H; simpl in H;
          rewrite Eg in H; simpl in H; rewrite Evar in H; discriminate].
      rewrite (mean_polygon_inside ds name shapefile Ecol Eg Evar) in H.
      injection H as <-. exists col, g, var. auto.
    - intros (col & g & var & Hcol & Hg & Hvar & ->).
      exact (mean_polygon_inside ds name shapefile Hcol Hg Hvar). }
  split; [exact Hiff|].
  intros r H. apply Hiff in H as (col & g & var & _ & _ & _ & ->).
  unfold mean_lat_lon. rewrite length_map, length_seq. reflexivity.
Qed.

(** X20.  The cells outside the union play no part: two variables that
    agree on the grid points the union contains have the same
    [mean_polygon]. *)
Theorem mean_polygon_ignores_outside (ds : Dataset) (name name' : string)
        (shapefile : GeoDataFrame G) (col : list (option G)) (g : G)
        (var var' : variable) :
  geometry shapefile = Ok col ->
  union_all (present col) = Ok g ->
  getvar ds name = Ok var ->
  getvar ds name' = Ok var' ->
  (forall t i j,
      (i < List.length (lat ds))%nat -> (j < List.length (lon ds))%nat ->
      contains g (nth j (lon ds) 0, nth i (lat ds) 0) = true ->
      var t i j = var' t i j) ->
  mean_polygon ds name shapefile = mean_polygon ds name' shapefile.
Proof.
  intros Hcol Hg Hvar Hvar' Hsame.
  rewrite (mean_polygon_inside ds name shapefile Hcol Hg Hvar).
  rewrite (mean_polygon_inside ds name' shapefile Hcol Hg Hvar').
  f_equal. apply mean_lat_lon_ext. intros t i j Hi Hj. unfold inside.
  destruct (contains g _) eqn:E; [|reflexivity].
  apply Hsame; assumption.
Qed.

(** X21.  A union that contains one grid point only gives the series of
    that cell: at each time step the result holds the number of the cell,
    or is missing when the cell is. *)
Theorem mean_polygon_single_cell (ds : Dataset) (name : string)
        (shapefile : GeoDataFrame G) (col : list (option G)) (g : G)
        (var : variable) (i0 j0 : nat) :
  geometry shapefile = Ok col ->
  union_all (present col) = Ok g ->
  getvar ds name = Ok var ->
  (i0 < List.length (lat ds))%nat ->
  (j0 < List.length (lon ds))%nat ->
  contains g (nth j0 (lon ds) 0, nth i0 (lat ds) 0) = true ->
  (forall i j,
      (i < List.length (lat ds))%nat -> (j < List.length (lon ds))%nat ->
      i <> i0 \/ j <> j0 ->
      contains g (nth j (lon ds) 0, nth i (lat ds) 0) = false) ->
  exists r,
    mean_polygon ds name shapefile = Ok r /\
    Forall2 same_value r
            (map (fun t => var t i0 j0) (seq 0 (List.length (time ds)))).
Proof.
  intros Hcol Hg Hvar Hi0 Hj0 Hin Hout.
  rewrite (mean_polygon_inside ds name shapefile Hcol Hg Hvar).
  eexists. split; [reflexivity|]. unfold mean_lat_lon.
  induction (seq 0 (List.length (time ds))) as [|t ts IH]; simpl;
    constructor; [|exact IH].
  replace (nanmean (slice ds (inside ds g var) t))
    with (nanmean [var t i0 j0]); [apply nanmean_single|].
  apply nanmean_valid. symmetry.
  rewrite (@valid_slice_single ds (inside ds g var) t i0 j0 Hi0 Hj0).
  - unfold inside. rewrite Hin. reflexivity.
  - intros i j Hi Hj Hne. unfold inside. rewrite (Hout i j Hi Hj Hne).
    reflexivity.
Qed.

End MeanPolygonBehaviour.

(** ** The sample datasets, once more *)


(** The first latitude and the last longitude of the dataset whose
    latitudes decrease. *)
Lemma grid_data_on_grid_point_witness :
  grid_data north_first (nth 0 (lat north_first) 0)
            (nth 2 (lon north_first) 0)
  = Ok (cell_at north_first 0 2).
Proof.
  apply (@grid_data_on_grid_point north_first 0%nat 2%nat).
  - vm_compute. reflexivity.
  - vm_compute. reflexivity.
  - simpl. lia.
  - simpl. lia.
Defined.

(** The lat target 15 is as far from 20 as from 10, the lon target 25 as
    far from 20 as from 30: the cell is at lat 20 and lon 30. *)
Lemma grid_data_tie_takes_larger_witness :
  (forall x, In x (lat north_first) ->
             Qabs ((15 # 1) - x)
             == Qabs ((15 # 1) - cell_lat (cell_at north_first 1 2)) ->
             x <= cell_lat (cell_at north_first 1 2)) /\
  (forall y, In y (lon north_first) ->
             Qabs ((25 # 1) - y)
             == Qabs ((25 # 1) - cell_lon (cell_at north_first 1 2)) ->
             y <= cell_lon (cell_at north_first 1 2)).
Proof.
  apply (@grid_data_tie_takes_larger north_first (15 # 1) (25 # 1)
           (cell_at north_first 1 2)).
  vm_compute. reflexivity.
Defined.

(** The lat target 50 is above every latitude, the lon target 0 below
    every longitude: the cell is at lat 30 and lon 10. *)
Lemma grid_data_clamps_witness :
  (((forall x, In x (lat sample) -> x <= 50 # 1) ->
    forall x, In x (lat sample) -> x <= cell_lat (cell_at sample 2 0)) /\
   ((forall x, In x (lat sample) -> 50 # 1 <= x) ->
    forall x, In x (lat sample) -> cell_lat (cell_at sample 2 0) <= x)) /\
  (((forall y, In y (lon sample) -> y <= 0) ->
    forall y, In y (lon sample) -> y <= cell_lon (cell_at sample 2 0)) /\
   ((forall y, In y (lon sample) -> 0 <= y) ->
    forall y, In y (lon sample) -> cell_lon (cell_at sample 2 0) <= y)).
Proof.
  apply (@grid_data_clamps sample (50 # 1) 0 (cell_at sample 2 0)).
  vm_compute. reflexivity.
Defined.

(** The square from 15 to 25 contains the grid point (20, 20) only, where
    the two variables agree. *)
Lemma mean_polygon_ignores_outside_witness :
  mean_polygon north_first "T" (shapes [[square (15 # 1) (25 # 1)]])
  = mean_polygon north_first "H" (shapes [[square (15 # 1) (25 # 1)]]).
Proof.
  apply (mean_polygon_ignores_outside north_first "T" "H"
           (shapes [[square (15 # 1) (25 # 1)]])
           (col := [Some [square (15 # 1) (25 # 1)]])
           (g := [square (15 # 1) (25 # 1)])
           (var := temperature) (var' := humidity)); try reflexivity.
  intros t i j Hi Hj Hc. simpl in Hi, Hj.
  destruct i as [|[|[|i]]]; [| | |lia];
    destruct j as [|[|[|j]]]; try lia;
    first [ reflexivity | vm_compute in Hc; discriminate ].
Defined.

Lemma mean_polygon_single_cell_witness :
  exists r,
    mean_polygon sample "T" (shapes [[square (15 # 1) (25 # 1)]]) = Ok r /\
    Forall2 same_value r
            (map (fun t => temperature t 1%nat 1%nat)
                 (seq 0 (List.length (time sample)))).
Proof.
  apply (mean_polygon_single_cell sample "T"
           (shapes [[square (15 # 1) (25 # 1)]])
           (col := [Some [square (15 # 1) (25 # 1)]])
           (g := [square (15 # 1) (25 # 1)])
           (var := temperature) (i0 := 1%nat) (j0 := 1%nat));
    try reflexivity; try (simpl; lia).
  intros i j Hi Hj Hne. simpl in Hi, Hj.
  destruct i as [|[|[|i]]]; [| | |lia];
    destruct j as [|[|[|j]]]; try lia;
    first [ vm_compute; reflexivity | destruct Hne; congruence ].
Defined.

(** * Boundary points *)

(** ** What [contains] and the boundary are on rectangles *)

(** A rectangle contains the points strictly inside it, and no other. *)
Lemma box_contains_iff (b : box) (p : Q * Q) :
  region_interior [b] p = true <-> strictly_inside b p.
Proof.
  unfold region_interior, strictly_inside, covers_quadrant, reaches.
  simpl. rewrite !orb_false_r, andb_true_r, !andb_true_iff.
  rewrite !Qle_bool_iff, !AirFacts.Qlt_bool_iff.
  split; intros H; repeat split; try tauto; lra.
Qed.

(** The boundary of a rectangle is made of its four sides. *)
Lemma box_boundary_iff (b : box) (p : Q * Q) :
  region_boundary [b] p = true <-> on_side b p.
Proof.
  unfold region_boundary. rewrite andb_true_iff, negb_true_iff.
  assert (Hcov : region_covers [b] p = true <->
                 xmin b <= fst p /\ fst p <= xmax b /\
                 ymin b <= snd p /\ snd p <= ymax b).
  { unfold region_covers. simpl.
    rewrite orb_false_r, !andb_true_iff, !Qle_bool_iff. tauto. }
  rewrite Hcov. unfold on_side. split.
  - intros [Hc Hi]. split; [exact Hc|].
    destruct (Qlt_le_dec (xmin b) (fst p)) as [H1|H1]; [|left; lra].
    destruct (Qlt_le_dec (fst p) (xmax b)) as [H2|H2]; [|right; left; lra].
    destruct (Qlt_le_dec (ymin b) (snd p)) as [H3|H3];
      [|right; right; left; lra].
    destruct (Qlt_le_dec (snd p) (ymax b)) as [H4|H4];
      [|right; right; right; lra].
    exfalso.
    assert (E : region_interior [b] p = true)
      by (apply box_contains_iff; unfold strictly_inside; auto).
    congruence.
  - intros [Hc Hs]. split; [exact Hc|].
    destruct (region_interior [b] p) eqn:E; [|reflexivity].
    apply box_contains_iff in E. unfold strictly_inside in E.
    exfalso. destruct Hs as [Hs|[Hs|[Hs|Hs]]]; lra.
Qed.

(** ** The mask, cell by cell *)

Section BoundaryMask.

Context {G : Type} {geo : Geometry G}.



End BoundaryMask.



(** Of the four grid points the closed rectangle from (10, 10) to
    (25, 25) covers, with the cells 0, 1, 10 and 11 at the first time,
    three are on its sides: the mean is the cell 11 of the fourth, not
    the mean 11/2 of the four. *)
Lemma boundary_cells_are_left_out :
  map (region_covers [rect_10_25])
      [(10 # 1, 10 # 1); (20 # 1, 10 # 1); (10 # 1, 20 # 1);
       (20 # 1, 20 # 1)]
  = [true; true; true; true] /\
  map (region_boundary [rect_10_25])
      [(10 # 1, 10 # 1); (20 # 1, 10 # 1); (10 # 1, 20 # 1);
       (20 # 1, 20 # 1)]
  = [true; true; true; false] /\
  mean_polygon sample "T" (shapes [[rect_10_25]])
  = Ok [Val (11 # 1); Val (111 # 1)].
Proof. repeat split; vm_compute; reflexivity. Qed.

(** The side that two rectangles share is inside their union: the grid
    point (20, 20) is on the boundary of each half and its cell counts in
    the mean over the two halves. *)
Lemma shared_side_is_inside_the_union :
  region_boundary [west_half] (20 # 1, 20 # 1) = true /\
  region_boundary [east_half] (20 # 1, 20 # 1) = true /\
  region_boundary [west_half; east_half] (20 # 1, 20 # 1) = false /\
  mean_polygon sample "T" (shapes [[west_half]; [east_half]])
  = Ok [Val (11 # 1); Val (111 # 1)].
Proof. repeat split; vm_compute; reflexivity. Qed.

End MerraFacts.
